(** * GitHub README Generator: a shallow embedding of [server.js]

    The development follows the layout of the server:
    - [Js]        : the few JavaScript string primitives the handlers use;
    - [Handler]   : a state-and-exception monad for Express handlers
                    (a [throw] does not roll the session back);
    - [Auth]      : the OAuth routes [/auth/github] and
                    [/auth/github/callback];
    - [Sanitizer] : the [res.json] override;
    - [Aggregator]: [fetchRepoData];
    - [Generator] : [generateReadme] and [generateFallbackReadme];
    - [Api]       : the handlers of [/api/generate-readme] and
                    [/api/repositories];
    - [Url]       : [parseGitHubUrl];
    - [SafeLog]   : [safeLog];
    - [Server]    : the generate handler with the URL parser plugged in,
                    on the body the JSON parser hands over, and the
                    answer of [/auth/status];
    - [Frontend]  : [calculateQuality] of [public/script.js].

    Strings are byte strings; the decorations of the templates are kept as
    the bytes found in the source file. *)

From Stdlib Require Import String Ascii List Bool Arith ZArith Lia.
From Stdlib Require Import DecimalString DecimalNat.
Import ListNotations.

Local Open Scope list_scope.
Local Open Scope string_scope.

(* ===================================================================== *)
(** * JavaScript string primitives *)
(* ===================================================================== *)

Module Js.

(** [s.includes(sub)] *)
Fixpoint includes (s sub : string) : bool :=
  String.prefix sub s ||
  match s with
  | EmptyString => false
  | String _ s' => includes s' sub
  end.

(** [c.toLowerCase()] on one byte: only [A]-[Z] change. *)
Definition lower_ascii (c : ascii) : ascii :=
  let n := nat_of_ascii c in
  if ((65 <=? n)%nat && (n <=? 90)%nat)%bool then ascii_of_nat (n + 32) else c.

(** [s.toLowerCase()] on the UTF-8 bytes of [s].  Besides [A]-[Z], two
    characters have a lower case that contains an ASCII letter and are
    lowered as JavaScript lowers them: the Kelvin sign U+212A (bytes
    226 132 170) becomes [k], and the capital dotted I U+0130 (bytes
    196 176) becomes [i] followed by the combining dot U+0307 (bytes
    204 135).  Every other character has a lower case without ASCII
    letters; its bytes are kept, which no search for an ASCII text, the
    only use the server and the page make of the result, can tell from
    the lowered character. *)
Fixpoint toLowerCase (s : string) : string :=
  match s with
  | EmptyString => EmptyString
  | String c s' =>
      if Ascii.eqb c "226" then
        match s' with
        | String c2 (String c3 s3) =>
            if (Ascii.eqb c2 "132" && Ascii.eqb c3 "170")%bool
            then String "k" (toLowerCase s3)
            else String c (toLowerCase s')
        | _ => String c (toLowerCase s')
        end
      else if Ascii.eqb c "196" then
        match s' with
        | String c2 s2 =>
            if Ascii.eqb c2 "176"
            then String "i" (String "204" (String "135" (toLowerCase s2)))
            else String c (toLowerCase s')
        | EmptyString => String c EmptyString
        end
      else String (lower_ascii c) (toLowerCase s')
  end.

(** [xs.join(sep)] *)
Fixpoint join (sep : string) (xs : list string) : string :=
  match xs with
  | [] => ""
  | [x] => x
  | x :: rest => x ++ sep ++ join sep rest
  end.

(** The string a number is interpolated as. *)
Definition show_nat (n : nat) : string :=
  NilZero.string_of_uint (Nat.to_uint n).

(** JavaScript truthiness of a value that is [undefined]/[null] or a
    string: the empty string is falsy as well. *)
Definition truthy (v : option string) : bool :=
  match v with
  | None => false
  | Some s => negb (String.eqb s "")
  end.

(** [v || dflt] for such a value. *)
Definition or_else (v : option string) (dflt : string) : string :=
  match v with
  | Some s => if String.eqb s "" then dflt else s
  | None => dflt
  end.

(** Interpolation [`${v}`] of such a value. *)
Definition interp (v : option string) : string :=
  match v with
  | Some s => s
  | None => "undefined"
  end.

Definition nl : string := String "010"%char EmptyString.
Definition dquote : string := String "034"%char EmptyString.
Definition backtick : string := String "096"%char EmptyString.

(** A template literal written line by line. *)
Definition lines (xs : list string) : string := join nl xs.

End Js.

(* ===================================================================== *)
(** * Handlers: mutable state with exceptions *)
(* ===================================================================== *)

Module Handler.

Section Monad.
Context {St Err : Type}.

(** A computation reads and writes the request state and either
    returns or throws.  The state written before a [throw] stays
    written: JavaScript assignments are not undone by an exception. *)
Definition M (A : Type) : Type := St -> (A + Err) * St.

Definition ret {A} (a : A) : M A := fun s => (inl a, s).

Definition bind {A B} (c : M A) (k : A -> M B) : M B :=
  fun s =>
    match c s with
    | (inl a, s') => k a s'
    | (inr e, s') => (inr e, s')
    end.

Definition throw {A} (e : Err) : M A := fun s => (inr e, s).

(** [try { c } catch (e) { h e }] *)
Definition try_catch {A} (c : M A) (h : Err -> M A) : M A :=
  fun s =>
    match c s with
    | (inl a, s') => (inl a, s')
    | (inr e, s') => h e s'
    end.

Definition get : M St := fun s => (inl s, s).
Definition modify (f : St -> St) : M unit := fun s => (inl tt, f s).
End Monad.

Declare Scope handler_scope.
Delimit Scope handler_scope with handler.
Notation "x <- c ;; k" := (bind c (fun x => k))
  (at level 61, c at next level, right associativity) : handler_scope.
Notation "c ;;; k" := (bind c (fun _ => k))
  (at level 61, right associativity) : handler_scope.

End Handler.

(* ===================================================================== *)
(** * The authorization routes *)
(* ===================================================================== *)

Module Auth.
Import Handler.
Local Open Scope handler_scope.

(** A member of [req.query]: absent, a string, or what the query parser
    builds from repeated or bracketed parameters (an array or object,
    kept with the string [ToString] gives for it). *)
Inductive QueryParam : Type :=
| QUndefined
| QString (s : string)
| QStructured (to_string : string).

Record User : Type := mkUser {
  login : option string;
  name : option string;
  avatar_url : option string
}.

(** The fields of [req.session] the server uses. *)
Record Session : Type := mkSession {
  oauthState : option string;
  accessToken : option string;
  user : option User
}.

Record Config : Type := mkConfig {
  GITHUB_CLIENT_ID : option string;
  GITHUB_CLIENT_SECRET : option string;
  GITHUB_REDIRECT_URI : option string
}.

Inductive Response : Type :=
| Redirect (url : string)
| SendStatus (status : nat) (body : string).

(** Requests the server sends upstream, in the order they are sent. *)
Inductive UpstreamCall : Type :=
| PostAccessToken (code : QueryParam) (redirect_uri : string)
| GetUser (bearer : string).

(** What the two upstream endpoints answer.  A resolved token exchange
    carries [tokenResponse.data.access_token], which GitHub leaves out
    when it refuses the code. *)
Inductive Outcome (A : Type) : Type :=
| Resolved (a : A)
| Rejected (message : string).
Arguments Resolved {A} a.
Arguments Rejected {A} message.

Record Upstream : Type := mkUpstream {
  token_endpoint : QueryParam -> Outcome (option string);
  user_endpoint : string -> Outcome User
}.

(** The state a handler runs in: the session and the log of upstream
    requests. *)
Record World : Type := mkWorld {
  session : Session;
  calls : list UpstreamCall
}.

Definition H (A : Type) : Type := @M World string A.

Definition set_oauthState (v : string) : H unit :=
  modify (fun w =>
    mkWorld (mkSession (Some v) (accessToken (session w)) (user (session w)))
            (calls w)).

Definition set_accessToken (v : string) : H unit :=
  modify (fun w =>
    mkWorld (mkSession (oauthState (session w)) (Some v) (user (session w)))
            (calls w)).

Definition set_user (u : User) : H unit :=
  modify (fun w =>
    mkWorld (mkSession (oauthState (session w)) (accessToken (session w)) (Some u))
            (calls w)).

Definition record_call (c : UpstreamCall) : H unit :=
  modify (fun w => mkWorld (session w) (calls w ++ [c])%list).

(** [await axios.post(...)] / [await axios.get(...)]: log the request,
    then return the answer or throw the rejection. *)
Definition await {A} (c : UpstreamCall) (o : Outcome A) : H A :=
  record_call c ;;;
  match o with
  | Resolved a => ret a
  | Rejected m => throw m
  end.

(** [state !== req.session.oauthState]: strict inequality between a query
    member and a session field that is [undefined] or a string. *)
Definition strict_neq (q : QueryParam) (v : option string) : bool :=
  match q, v with
  | QUndefined, None => false
  | QString a, Some b => negb (String.eqb a b)
  | _, _ => true
  end.

Definition config_error : string :=
  "Server configuration error: Missing GITHUB_REDIRECT_URI.".

(** [app.get('/auth/github', ...)]; [nonce] is
    [crypto.randomBytes(16).toString('hex')]. *)
Definition start (cfg : Config) (nonce : string) : H Response :=
  set_oauthState nonce ;;;
  if negb (Js.truthy (GITHUB_REDIRECT_URI cfg)) then
    ret (SendStatus 500 config_error)
  else
    ret (Redirect
      ("https://github.com/login/oauth/authorize?" ++
       "client_id=" ++ Js.interp (GITHUB_CLIENT_ID cfg) ++ "&" ++
       "redirect_uri=" ++ Js.interp (GITHUB_REDIRECT_URI cfg) ++ "&" ++
       "scope=repo&" ++
       "state=" ++ nonce)).

(** [app.get('/auth/github/callback', ...)] *)
Definition callback (cfg : Config) (up : Upstream)
    (code state : QueryParam) : H Response :=
  w <- get ;;
  if strict_neq state (oauthState (session w)) then
    ret (Redirect "/?error=invalid_state")
  else if negb (Js.truthy (GITHUB_REDIRECT_URI cfg)) then
    ret (SendStatus 500 config_error)
  else
    try_catch
      (access_token <-
         await (PostAccessToken code (Js.interp (GITHUB_REDIRECT_URI cfg)))
               (token_endpoint up code) ;;
       if negb (Js.truthy access_token) then
         throw "No access token received"
       else
         let tok := Js.interp access_token in
         set_accessToken tok ;;;
         u <- await (GetUser tok) (user_endpoint up tok) ;;
         set_user u ;;;
         ret (Redirect "/?auth=success"))
      (fun _ => ret (Redirect "/?error=auth_failed")).

(** [app.get('/auth/status', ...)]: the two members of the object the
    handler hands to [res.json], [!!req.session.accessToken] and
    [req.session.user || null], before the response sanitizer sees
    them.  The answer itself is [Server.auth_status]. *)
Definition status (s : Session) : bool * option User :=
  (Js.truthy (accessToken s), user s).

(** The session after the token is stored and before the identity is
    known. *)
Definition with_token (s : Session) (tok : string) : Session :=
  mkSession (oauthState s) (Some tok) (user s).

Definition with_token_and_user (s : Session) (tok : string) (u : User) : Session :=
  mkSession (oauthState s) (Some tok) (Some u).

(** ** The redirects of the callback, and sample inputs *)

Definition invalid_state : Response := Redirect "/?error=invalid_state".
Definition auth_failed : Response := Redirect "/?error=auth_failed".
Definition auth_success : Response := Redirect "/?auth=success".

(** Sample inputs: a configured server, a session that went through
    [/auth/github], and a GitHub that accepts the code. *)
Definition cfg_ok : Config :=
  mkConfig (Some "client") (Some "shh") (Some "http://localhost:3000/auth/github/callback").
Definition cfg_no_redirect : Config := mkConfig (Some "client") (Some "shh") None.
Definition fresh : World := mkWorld (mkSession None None None) [].
Definition started : World := mkWorld (mkSession (Some "5f2a") None None) [].
Definition octocat : User := mkUser (Some "octocat") (Some "The Octocat") None.
Definition github_accepts : Upstream :=
  mkUpstream (fun _ => Resolved (Some "gho_abc")) (fun _ => Resolved octocat).
Definition github_identity_down : Upstream :=
  mkUpstream (fun _ => Resolved (Some "gho_abc")) (fun _ => Rejected "timeout").

End Auth.

(* ===================================================================== *)
(** * The response sanitizer *)
(* ===================================================================== *)

Module Sanitizer.

(** The values [JSON.stringify] can write and [JSON.parse] reads back.
    An object is the list of its own properties in enumeration order. *)
#[warnings="-register-all"]
Inductive Json : Type :=
| JNull
| JBool (b : bool)
| JNumber (n : Z)
| JString (s : string)
| JArray (items : list Json)
| JObject (props : list (string * Json)).

Definition REDACTED : string := "[REDACTED]".

(** The condition of the replacer once [typeof value === 'string']
    holds. *)
Definition looks_secret (key value : string) : bool :=
  Js.includes value "ghp_" ||
  Js.includes value "gho_" ||
  Js.includes value "ghs_" ||
  Js.includes (Js.toLowerCase key) "token" ||
  Js.includes (Js.toLowerCase key) "secret".

(** The replacer passed to [JSON.stringify] in the [res.json]
    override. *)
Definition replacer (key : string) (value : Json) : Json :=
  match value with
  | JString s => if looks_secret key s then JString REDACTED else value
  | _ => value
  end.

(** The key under which [JSON.stringify] presents the [i]-th element of
    an array to the replacer. *)
Definition index_key (i : nat) : string := Js.show_nat i.

(** [JSON.parse(JSON.stringify(value, replacer))], for the property
    [key] of its holder: the replacer sees the value first, and what it
    returns is serialized member by member.  The replacer returns
    arrays and objects as they are, so the walk descends into [value]
    itself. *)
Fixpoint clean (key : string) (value : Json) : Json :=
  match value with
  | JArray items =>
      JArray
        ((fix elems (i : nat) (l : list Json) : list Json :=
            match l with
            | [] => []
            | x :: l' => clean (index_key i) x :: elems (S i) l'
            end) 0 items)
  | JObject props =>
      JObject
        ((fix members (l : list (string * Json)) : list (string * Json) :=
            match l with
            | [] => []
            | (k, v) :: l' => (k, clean k v) :: members l'
            end) props)
  | _ => replacer key value
  end.

(** The payload handed to the original [res.json]: the walk starts at a
    holder whose only property has the empty key. *)
Definition sanitize (data : Json) : Json := clean "" data.

(** ** Addressing key/value pairs

    The members of a value, each with the key the replacer is given. *)
Fixpoint indexed (i : nat) (l : list Json) : list (string * Json) :=
  match l with
  | [] => []
  | x :: l' => (index_key i, x) :: indexed (S i) l'
  end.

Definition members_of (v : Json) : list (string * Json) :=
  match v with
  | JArray items => indexed 0 items
  | JObject props => props
  | _ => []
  end.

(** The key/value pair reached from [(key, v)] by descending through the
    member positions [path]; the empty path is the pair itself. *)
Fixpoint pair_at (key : string) (v : Json) (path : list nat)
    : option (string * Json) :=
  match path with
  | [] => Some (key, v)
  | i :: path' =>
      match nth_error (members_of v) i with
      | Some (k, c) => pair_at k c path'
      | None => None
      end
  end.

(** The key test and the value test of the specification, the latter on
    string values only. *)
Definition key_is_sensitive (key : string) : bool :=
  Js.includes (Js.toLowerCase key) "token" ||
  Js.includes (Js.toLowerCase key) "secret".

Definition value_has_token_prefix (v : Json) : bool :=
  match v with
  | JString s =>
      Js.includes s "ghp_" || Js.includes s "gho_" || Js.includes s "ghs_"
  | _ => false
  end.

(** What the walk does to a key/value pair. *)
Definition clean_pair (kv : string * Json) : string * Json :=
  (fst kv, clean (fst kv) (snd kv)).

(** ** A sample payload

    A string under a sensitive key, then sensitive keys holding an
    object, an array and a number. *)
Definition leaky : Json :=
  JObject [
    ("accessToken", JString "abc");
    ("secret", JObject [("value", JString "hunter2")]);
    ("tokens", JArray [JString "abc"; JString "old gho_16C7e42F292c69"]);
    ("tokenCount", JNumber 2) ].

End Sanitizer.

(* ===================================================================== *)
(** * The repository data aggregator *)
(* ===================================================================== *)

Module Aggregator.

(** What the [catch] of [fetchRepoData] reads of the error it caught:
    [error.response?.status], [error.response.data?.message] and
    [error.message]. *)
Record AxiosError : Type := mkAxiosError {
  response_status : option nat;
  response_message : option string;
  message : string
}.

Inductive Settled (A : Type) : Type :=
| Fulfilled (data : A)
| RejectedWith (error : AxiosError).
Arguments Fulfilled {A} data.
Arguments RejectedWith {A} error.

(** The answer of the profile call is a JSON object; these are the
    members of [repoData.data] that are read. *)
Record RepoProfile : Type := mkRepoProfile {
  rp_name : string;
  rp_description : option string;
  rp_private : bool;
  rp_stargazers_count : nat;
  rp_forks_count : nat;
  rp_language : option string;
  rp_topics : option (list string);
  rp_license_name : option string;
  rp_html_url : string;
  rp_created_at : string;
  rp_updated_at : string;
  rp_open_issues_count : nat;
  rp_watchers_count : nat;
  rp_default_branch : string
}.

Record ContentItem : Type := mkContentItem { item_name : string }.

(** One entry of the commit list, read as [entry?.commit?.message]. *)
Record CommitEntry : Type := mkCommitEntry { commit_message : option string }.

(** The object [fetchRepoData] returns. *)
Record Descriptor : Type := mkDescriptor {
  name : string;
  description : option string;
  private : bool;
  stars : nat;
  forks : nat;
  language : option string;
  topics : list string;
  license : option string;
  languages : list string;
  files : list string;
  url : string;
  createdAt : string;
  updatedAt : string;
  openIssues : nat;
  watchers : nat;
  defaultBranch : string;
  lastCommit : string
}.

(** The body of the answer to the directory listing, as
    [contents.data.map(item => item.name)] meets it: an array of
    entries, or a value on which the call throws a [TypeError] with the
    given message: one that is not an array, or an array that holds a
    [null]. *)
Inductive ContentsBody : Type :=
| Listing (items : list ContentItem)
| NoListing (type_error : string).

(** The body of the answer to the commit request, as
    [commits.data[0]?.commit?.message] meets it: an array of entries; a
    value that has no entry 0 with a commit (an object, a text, a
    number); or [null], on which reading [0] throws a [TypeError] with
    the given message. *)
Inductive CommitsBody : Type :=
| CommitList (entries : list CommitEntry)
| NoCommitList
| NullCommits (type_error : string).

(** How the four requests of one [fetchRepoData] settle.  When both
    required requests reject, [Promise.all] rejects with the error of
    the one that rejected first. *)
Record Fetches : Type := mkFetches {
  repo_call : Settled RepoProfile;
  languages_call : Settled (list (string * nat));
  contents_call : Settled ContentsBody;
  commits_call : Settled CommitsBody;
  languages_rejects_first : bool
}.

(** [promise.catch(() => ({ data: [] }))], [empty] being the empty
    array. *)
Definition or_empty {A} (empty : A) (p : Settled A) : A :=
  match p with
  | Fulfilled d => d
  | RejectedWith _ => empty
  end.

(** [await Promise.all([...])] over the two bare requests and the two
    guarded ones. *)
Definition promise_all (f : Fetches)
    : (RepoProfile * list (string * nat) * ContentsBody * CommitsBody)
      + AxiosError :=
  match repo_call f, languages_call f with
  | Fulfilled r, Fulfilled l =>
      inl (r, l, or_empty (Listing []) (contents_call f),
           or_empty (CommitList []) (commits_call f))
  | RejectedWith e, Fulfilled _ => inr e
  | Fulfilled _, RejectedWith e => inr e
  | RejectedWith e1, RejectedWith e2 =>
      inr (if languages_rejects_first f then e2 else e1)
  end.

(** The branches of the [catch] block, under the names the
    specification gives them. *)
Inductive FetchError : Type :=
| AuthExpiredError
| RateLimitError
| PermissionError
| NotFoundError
| UnknownFetchError (cause : string).

(** [error.response.data?.message?.includes('rate limit')], read as a
    condition. *)
Definition mentions_rate_limit (e : AxiosError) : bool :=
  match response_message e with
  | Some m => Js.includes m "rate limit"
  | None => false
  end.

Definition classify (e : AxiosError) : FetchError :=
  match response_status e with
  | Some 401 => AuthExpiredError
  | Some 403 =>
      if mentions_rate_limit e then RateLimitError else PermissionError
  | Some 404 => NotFoundError
  | _ => UnknownFetchError (message e)
  end.

(** The message of the [Error] each branch throws. *)
Definition error_message (k : FetchError) : string :=
  match k with
  | AuthExpiredError =>
      "Authentication expired. Please login again to access this repository."
  | RateLimitError =>
      "GitHub API rate limit exceeded. Please try again later."
  | PermissionError =>
      "You do not have permission to access this repository."
  | NotFoundError =>
      "Repository not found. If this is a private repository, please login with GitHub."
  | UnknownFetchError cause =>
      "Failed to fetch repository: " ++ cause
  end.

(** [commits.data[0]?.commit?.message || 'No commits yet'], or the
    message of the [TypeError] it throws. *)
Definition last_commit_of (commits : CommitsBody) : string + string :=
  match commits with
  | CommitList [] => inl "No commits yet"
  | CommitList (c :: _) => inl (Js.or_else (commit_message c) "No commits yet")
  | NoCommitList => inl "No commits yet"
  | NullCommits type_error => inr type_error
  end.

(** A [TypeError] thrown inside the [try], as the [catch] block sees
    it: it has no [response]. *)
Definition type_error (message : string) : AxiosError :=
  mkAxiosError None None message.

(** [fetchRepoData]: the descriptor, or the message of the thrown
    [Error].  The members of the descriptor are computed in the order
    of the object literal: [files] before [lastCommit]. *)
Definition fetchRepoData (f : Fetches) : Descriptor + string :=
  match promise_all f with
  | inl (repoData, langs, contents, commits) =>
      match contents with
      | NoListing m => inr (error_message (classify (type_error m)))
      | Listing items =>
          match last_commit_of commits with
          | inr m => inr (error_message (classify (type_error m)))
          | inl last =>
              inl {|
                name := rp_name repoData;
                description := rp_description repoData;
                private := rp_private repoData;
                stars := rp_stargazers_count repoData;
                forks := rp_forks_count repoData;
                language := rp_language repoData;
                topics := match rp_topics repoData with Some t => t | None => [] end;
                license := rp_license_name repoData;
                languages := map fst langs;
                files := map item_name items;
                url := rp_html_url repoData;
                createdAt := rp_created_at repoData;
                updatedAt := rp_updated_at repoData;
                openIssues := rp_open_issues_count repoData;
                watchers := rp_watchers_count repoData;
                defaultBranch := rp_default_branch repoData;
                lastCommit := last
              |}
          end
      end
  | inr e => inr (error_message (classify e))
  end.

(** ** Sample inputs *)

Definition sample_profile : RepoProfile :=
  mkRepoProfile "demo" None false 5 1 (Some "Go") (Some []) None
    "https://github.com/octocat/demo" "2024-01-01T00:00:00Z"
    "2024-02-01T00:00:00Z" 0 5 "main".

Definition forbidden : AxiosError :=
  mkAxiosError (Some 403) (Some "Resource not accessible by integration")
    "Request failed with status code 403".

Definition server_error : AxiosError :=
  mkAxiosError (Some 500) None "Request failed with status code 500".

(** A failure without a response, whose text holds "not found". *)
Definition lookup_failed : AxiosError :=
  mkAxiosError None None "proxy host not found".

Definition profile_forbidden : Fetches :=
  mkFetches (RejectedWith forbidden) (Fulfilled [("Go", 1024)])
    (Fulfilled (Listing [])) (Fulfilled (CommitList [])) false.

End Aggregator.

(* ===================================================================== *)
(** * The document generator *)
(* ===================================================================== *)

Module Generator.
Import Aggregator.

(** The decorations of the headings, byte for byte as the source file
    has them. *)
Definition of_codes (l : list nat) : string :=
  fold_right (fun n s => String (ascii_of_nat n) s) EmptyString l.

Definition deco_private : string :=
  of_codes [196; 159; 197; 184; 226; 128; 157; 226; 128; 153].
Definition deco_description : string :=
  of_codes [196; 159; 197; 184; 226; 128; 156].
Definition deco_features : string :=
  of_codes [195; 162; 197; 147; 194; 168].
Definition deco_tech : string :=
  of_codes [196; 159; 197; 184; 226; 128; 186; 194; 160; 195; 175; 194; 184].
Definition deco_prerequisites : string :=
  of_codes [196; 159; 197; 184; 226; 128; 156; 226; 128; 185].
Definition deco_installation : string :=
  of_codes [196; 159; 197; 184; 197; 161; 226; 130; 172].
Definition deco_usage : string :=
  of_codes [196; 159; 197; 184; 226; 128; 153; 194; 187].
Definition deco_structure : string :=
  of_codes [196; 159; 197; 184; 226; 128; 156].
Definition deco_branch : string :=
  of_codes [195; 162; 226; 128; 157; 197; 147; 195; 162; 226; 128; 157;
            226; 130; 172; 195; 162; 226; 128; 157; 226; 130; 172].
Definition deco_last_branch : string :=
  of_codes [195; 162; 226; 128; 157; 226; 128; 157; 195; 162; 226; 128; 157;
            226; 130; 172; 195; 162; 226; 128; 157; 226; 130; 172].
Definition deco_contributing : string :=
  of_codes [196; 159; 197; 184; 194; 164].
Definition deco_license : string :=
  of_codes [196; 159; 197; 184; 226; 128; 156; 226; 128; 158].
Definition deco_contact : string :=
  of_codes [196; 159; 197; 184; 226; 128; 156; 194; 167].
Definition deco_heart : string :=
  of_codes [195; 162; 194; 164; 195; 175; 194; 184].

(** The headings of the fallback document. *)
Definition h_private : string := "## " ++ deco_private ++ " Private Repository".
Definition h_description : string := "## " ++ deco_description ++ " Description".
Definition h_features : string := "## " ++ deco_features ++ " Features".
Definition h_tech : string := "## " ++ deco_tech ++ " Tech Stack".
Definition h_prerequisites : string := "## " ++ deco_prerequisites ++ " Prerequisites".
Definition h_installation : string := "## " ++ deco_installation ++ " Installation".
Definition h_usage : string := "## " ++ deco_usage ++ " Usage".
Definition h_structure : string := "## " ++ deco_structure ++ " Project Structure".
Definition h_contributing : string := "## " ++ deco_contributing ++ " Contributing".
Definition h_license : string := "## " ++ deco_license ++ " License".
Definition h_contact : string := "## " ++ deco_contact ++ " Contact".

(** [cond ? text : ''] *)
Definition when (cond : bool) (text : string) : string :=
  if cond then text else "".

(** [repoData.language === lang || repoData.languages.includes(lang)] *)
Definition uses (d : Descriptor) (lang : string) : bool :=
  match language d with
  | Some l => String.eqb l lang
  | None => false
  end || existsb (String.eqb lang) (languages d).

Section Fallback.
(** [new Date(s).toLocaleDateString()], which depends on the locale
    of the host. *)
Variable toLocaleDateString : string -> string.

Definition privateNotice (d : Descriptor) : string :=
  if private d then
    Js.lines [
      "";
      h_private;
      "";
      "This is a private repository. Access is restricted to authorized collaborators only.";
      "";
      "" ]
  else "".

Definition sec_title (d : Descriptor) : string :=
  "# " ++ name d ++ " " ++ when (private d) deco_private.

Definition sec_badges (d : Descriptor) : string :=
  Js.lines [
    when (private d) "![Private](https://img.shields.io/badge/Repository-Private-red)";
    "![GitHub stars](https://img.shields.io/badge/stars-" ++ Js.show_nat (stars d) ++ "-yellow)";
    "![GitHub forks](https://img.shields.io/badge/forks-" ++ Js.show_nat (forks d) ++ "-blue)";
    "![GitHub language](https://img.shields.io/badge/language-" ++ Js.or_else (language d) "Multiple" ++ "-green)";
    "![GitHub issues](https://img.shields.io/badge/issues-" ++ Js.show_nat (openIssues d) ++ "-orange)" ].

Definition sec_description (d : Descriptor) : string :=
  Js.lines [
    h_description;
    "";
    Js.or_else (description d) "A GitHub repository that needs a description.";
    "";
    privateNotice d ].

Definition sec_features (d : Descriptor) : string :=
  Js.lines [
    h_features;
    "";
    "- Built with " ++ Js.or_else (language d) "multiple languages";
    "- " ++ Js.show_nat (stars d) ++ " stars on GitHub";
    "- Active development with " ++ Js.show_nat (forks d) ++ " forks";
    "- " ++ Js.show_nat (openIssues d) ++ " open issues";
    "- Last updated: " ++ toLocaleDateString (updatedAt d);
    if (0 <? length (topics d))%nat then
      "- Topics: " ++
      Js.join ", " (map (fun topic => Js.backtick ++ topic ++ Js.backtick) (topics d))
    else "" ].

Definition sec_techStack (d : Descriptor) : string :=
  Js.lines [
    h_tech;
    "";
    if (0 <? length (languages d))%nat then
      Js.join Js.nl (map (fun lang => "- " ++ lang) (languages d))
    else "- " ++ Js.or_else (language d) "Not specified" ].

Definition sec_prerequisites (d : Descriptor) : string :=
  Js.lines [
    h_prerequisites;
    "";
    "Before you begin, ensure you have met the following requirements:";
    "- Git installed on your machine";
    "- " ++ when (uses d "JavaScript") "Node.js and npm installed";
    "- " ++ when (uses d "Python") "Python 3.x installed";
    "- " ++ when (uses d "Java") "Java JDK installed";
    "- " ++ when (private d) "Access permissions to this private repository" ].

Definition sec_installation (d : Descriptor) : string :=
  Js.lines [
    h_installation;
    "";
    "1. Clone the repository:";
    "```bash";
    "git clone " ++ url d;
    "cd " ++ name d;
    "```";
    "";
    "2. Install dependencies:";
    "```bash";
    when (uses d "JavaScript") "npm install";
    when (uses d "Python") "pip install -r requirements.txt";
    when (uses d "Java") "mvn install";
    when (negb (Js.truthy (language d))) "# Install dependencies based on your project type";
    "```" ].

Definition sec_usage (d : Descriptor) : string :=
  Js.lines [
    h_usage;
    "";
    "```bash";
    when (uses d "JavaScript") "npm start";
    when (uses d "Python") "python main.py";
    when (uses d "Java") "java -jar target/app.jar";
    when (negb (Js.truthy (language d))) "# Run the project based on your setup";
    "```" ].

Definition sec_projectStructure (d : Descriptor) : string :=
  Js.lines [
    h_structure;
    "";
    "```";
    name d ++ "/";
    Js.join Js.nl (map (fun file => deco_branch ++ " " ++ file) (firstn 10 (files d)));
    if (10 <? length (files d))%nat then
      deco_last_branch ++ " ... and " ++ Js.show_nat (length (files d) - 10) ++ " more files"
    else "";
    "```" ].

Definition sec_contributing : string :=
  Js.lines [
    h_contributing;
    "";
    "Contributions are welcome! Please follow these steps:";
    "";
    "1. Fork the repository";
    "2. Create your feature branch (`git checkout -b feature/AmazingFeature`)";
    "3. Commit your changes (`git commit -m 'Add some AmazingFeature'`)";
    "4. Push to the branch (`git push origin feature/AmazingFeature`)";
    "5. Open a Pull Request" ].

Definition sec_license (d : Descriptor) : string :=
  Js.lines [
    h_license;
    "";
    if Js.truthy (license d) then
      "This project is licensed under the " ++ Js.interp (license d) ++ "."
    else "This project is not currently licensed." ].

Definition sec_contact (d : Descriptor) : string :=
  Js.lines [
    h_contact;
    "";
    "- Repository: [" ++ name d ++ "](" ++ url d ++ ")";
    "- " ++ when (private d) "This is a private repository. Contact the repository owner for access.";
    "";
    "---";
    "";
    "<div align=" ++ Js.dquote ++ "center" ++ Js.dquote ++ ">";
    "Generated with " ++ deco_heart ++ " by GitHub README Generator";
    "</div>" ].

(** [Object.values(sections)], in insertion order. *)
Definition sections (d : Descriptor) : list string :=
  [ sec_title d; sec_badges d; sec_description d; sec_features d;
    sec_techStack d; sec_prerequisites d; sec_installation d; sec_usage d;
    sec_projectStructure d; sec_contributing; sec_license d; sec_contact d ].

Definition generateFallbackReadme (d : Descriptor) : string :=
  Js.join (Js.nl ++ Js.nl) (sections d).

(** The fallback document as its reader sees it, line by line: the
    lines of the twelve templates in the order of [sections], one
    empty line between two templates.  The text an interpolation
    inserts counts as one line, whatever it holds; a list that is
    interpolated gives one line for each of its entries. *)
Definition fallback_lines (d : Descriptor) : list string :=
  List.concat [
    (* title *)
    [ "# " ++ name d ++ " " ++ (if private d then deco_private else "") ];
    [ "" ];
    (* badges *)
    [ if private d then "![Private](https://img.shields.io/badge/Repository-Private-red)"
      else "";
      "![GitHub stars](https://img.shields.io/badge/stars-" ++ Js.show_nat (stars d) ++ "-yellow)";
      "![GitHub forks](https://img.shields.io/badge/forks-" ++ Js.show_nat (forks d) ++ "-blue)";
      "![GitHub language](https://img.shields.io/badge/language-" ++ Js.or_else (language d) "Multiple" ++ "-green)";
      "![GitHub issues](https://img.shields.io/badge/issues-" ++ Js.show_nat (openIssues d) ++ "-orange)" ];
    [ "" ];
    (* description, and the notice of a private repository *)
    [ h_description;
      "";
      Js.or_else (description d) "A GitHub repository that needs a description.";
      "" ];
    (if private d then
       [ "";
         h_private;
         "";
         "This is a private repository. Access is restricted to authorized collaborators only.";
         "";
         "" ]
     else [ "" ]);
    [ "" ];
    (* features *)
    [ h_features;
      "";
      "- Built with " ++ Js.or_else (language d) "multiple languages";
      "- " ++ Js.show_nat (stars d) ++ " stars on GitHub";
      "- Active development with " ++ Js.show_nat (forks d) ++ " forks";
      "- " ++ Js.show_nat (openIssues d) ++ " open issues";
      "- Last updated: " ++ toLocaleDateString (updatedAt d);
      match topics d with
      | [] => ""
      | _ :: _ =>
          "- Topics: " ++
          Js.join ", " (map (fun topic => Js.backtick ++ topic ++ Js.backtick) (topics d))
      end ];
    [ "" ];
    (* tech stack *)
    [ h_tech; "" ];
    match languages d with
    | [] => [ "- " ++ Js.or_else (language d) "Not specified" ]
    | _ :: _ => map (fun lang => "- " ++ lang) (languages d)
    end;
    [ "" ];
    (* prerequisites *)
    [ h_prerequisites;
      "";
      "Before you begin, ensure you have met the following requirements:";
      "- Git installed on your machine";
      "- " ++ (if uses d "JavaScript" then "Node.js and npm installed" else "");
      "- " ++ (if uses d "Python" then "Python 3.x installed" else "");
      "- " ++ (if uses d "Java" then "Java JDK installed" else "");
      "- " ++ (if private d then "Access permissions to this private repository" else "") ];
    [ "" ];
    (* installation *)
    [ h_installation;
      "";
      "1. Clone the repository:";
      "```bash";
      "git clone " ++ url d;
      "cd " ++ name d;
      "```";
      "";
      "2. Install dependencies:";
      "```bash";
      if uses d "JavaScript" then "npm install" else "";
      if uses d "Python" then "pip install -r requirements.txt" else "";
      if uses d "Java" then "mvn install" else "";
      if Js.truthy (language d) then ""
      else "# Install dependencies based on your project type";
      "```" ];
    [ "" ];
    (* usage *)
    [ h_usage;
      "";
      "```bash";
      if uses d "JavaScript" then "npm start" else "";
      if uses d "Python" then "python main.py" else "";
      if uses d "Java" then "java -jar target/app.jar" else "";
      if Js.truthy (language d) then "" else "# Run the project based on your setup";
      "```" ];
    [ "" ];
    (* project structure *)
    [ h_structure;
      "";
      "```";
      name d ++ "/" ];
    match files d with
    | [] => [ "" ]
    | _ :: _ => map (fun file => deco_branch ++ " " ++ file) (firstn 10 (files d))
    end;
    [ if (10 <? length (files d))%nat then
        deco_last_branch ++ " ... and " ++ Js.show_nat (length (files d) - 10) ++ " more files"
      else "";
      "```" ];
    [ "" ];
    (* contributing *)
    [ h_contributing;
      "";
      "Contributions are welcome! Please follow these steps:";
      "";
      "1. Fork the repository";
      "2. Create your feature branch (`git checkout -b feature/AmazingFeature`)";
      "3. Commit your changes (`git commit -m 'Add some AmazingFeature'`)";
      "4. Push to the branch (`git push origin feature/AmazingFeature`)";
      "5. Open a Pull Request" ];
    [ "" ];
    (* license *)
    [ h_license;
      "";
      match license d with
      | Some l =>
          if String.eqb l "" then "This project is not currently licensed."
          else "This project is licensed under the " ++ l ++ "."
      | None => "This project is not currently licensed."
      end ];
    [ "" ];
    (* contact *)
    [ h_contact;
      "";
      "- Repository: [" ++ name d ++ "](" ++ url d ++ ")";
      "- " ++ (if private d
               then "This is a private repository. Contact the repository owner for access."
               else "");
      "";
      "---";
      "";
      "<div align=" ++ Js.dquote ++ "center" ++ Js.dquote ++ ">";
      "Generated with " ++ deco_heart ++ " by GitHub README Generator";
      "</div>" ]
  ].

(** The template literal [prompt] of [generateReadme]. *)
Definition prompt (d : Descriptor) : string :=
  Js.lines [
    "";
    "    Generate a professional and comprehensive README.md file for a " ++
      (if private d then "PRIVATE" else "PUBLIC") ++
      " GitHub repository with the following information:";
    "    ";
    "    Repository Name: " ++ name d;
    "    Description: " ++ Js.or_else (description d) "No description provided";
    "    Private Repository: " ++ (if private d then "Yes" else "No");
    "    Main Language: " ++ Js.or_else (language d) "Not specified";
    "    All Languages: " ++ Js.or_else (Some (Js.join ", " (languages d))) "Not specified";
    "    Topics/Tags: " ++ Js.or_else (Some (Js.join ", " (topics d))) "None";
    "    Files in root directory: " ++ Js.join ", " (firstn 10 (files d));
    "    License: " ++ Js.or_else (license d) "No license";
    "    Stars: " ++ Js.show_nat (stars d);
    "    Forks: " ++ Js.show_nat (forks d);
    "    Open Issues: " ++ Js.show_nat (openIssues d);
    "    Last Commit: " ++ lastCommit d;
    "    ";
    "    " ++ when (private d) "Since this is a PRIVATE repository, ensure the README includes appropriate security notices and access instructions.";
    "    ";
    "    Please generate a complete, professional README with ALL of these sections:";
    "    1. Project Title with badges (including a " ++ Js.dquote ++ "Private" ++ Js.dquote ++ " badge if applicable)";
    "    2. Description (comprehensive and detailed)";
    "    3. " ++ when (private d) "Access & Security Notice";
    "    4. Key Features";
    "    5. Tech Stack";
    "    6. Prerequisites";
    "    7. Installation Guide";
    "    8. Configuration (if applicable)";
    "    9. Usage Examples";
    "    10. Project Structure";
    "    11. Contributing Guidelines";
    "    12. License Information";
    "    13. Contact/Support";
    "    ";
    "    Use proper markdown formatting, emojis, and shields.io badges.";
    "    " ].

(** How the one call of the generative backend ends:
    [model.generateContent(prompt)] rejects, or it resolves and
    [response.text()] throws or returns. *)
Inductive GenResult : Type :=
| GenerateRejected (error : string)
| TextThrew (error : string)
| TextReturned (text : string).

(** [generateReadme]; [backend] answers the prompt it is sent. *)
Definition generateReadme (backend : string -> GenResult) (d : Descriptor)
    : string :=
  match backend (prompt d) with
  | TextReturned text => text
  | GenerateRejected _ => generateFallbackReadme d
  | TextThrew _ => generateFallbackReadme d
  end.
End Fallback.

(** ** Reading a document

    [occurs_in_order hs s]: the strings [hs] occur in [s] one after the
    other, without overlap. *)
Inductive occurs_in_order : list string -> string -> Prop :=
| oio_nil : forall s, occurs_in_order [] s
| oio_cons : forall h hs before rest,
    occurs_in_order hs rest ->
    occurs_in_order (h :: hs) (before ++ h ++ rest).

(** What a reader finds in the fallback document, top to bottom: the
    heading of each block, the badges, and the lines that stand for a
    description, a language or a license. *)
Definition outline_title (d : Descriptor) : list string :=
  [ "# " ++ name d ].

Definition outline_badges (d : Descriptor) : list string :=
  [ "![GitHub stars](https://img.shields.io/badge/stars-" ++ Js.show_nat (stars d) ++ "-yellow)";
    "![GitHub forks](https://img.shields.io/badge/forks-" ++ Js.show_nat (forks d) ++ "-blue)";
    "![GitHub language](https://img.shields.io/badge/language-" ++ Js.or_else (language d) "Multiple" ++ "-green)";
    "![GitHub issues](https://img.shields.io/badge/issues-" ++ Js.show_nat (openIssues d) ++ "-orange)" ].

Definition outline_description (d : Descriptor) : list string :=
  [ h_description;
    Js.or_else (description d) "A GitHub repository that needs a description." ] ++
  (if private d then [ h_private ] else []).

Definition outline_features (d : Descriptor) : list string :=
  [ h_features;
    "- Built with " ++ Js.or_else (language d) "multiple languages" ].

Definition outline_license (d : Descriptor) : list string :=
  [ h_license;
    if Js.truthy (license d) then
      "This project is licensed under the " ++ Js.interp (license d) ++ "."
    else "This project is not currently licensed." ].

Definition outline_blocks (d : Descriptor) : list (list string) :=
  [ outline_title d; outline_badges d; outline_description d; outline_features d;
    [ h_tech ]; [ h_prerequisites ]; [ h_installation ]; [ h_usage ];
    [ h_structure ]; [ h_contributing ]; outline_license d; [ h_contact ] ].

Definition fallback_outline (d : Descriptor) : list string :=
  List.concat (outline_blocks d).

(** The thirteen sections of the specification, for a public
    repository, by the words of their headings. *)
Definition thirteen_sections_public (d : Descriptor) : list string :=
  [ "# " ++ name d; "Description"; "Features"; "Tech Stack"; "Prerequisites";
    "Installation"; "Configuration"; "Usage"; "Project Structure";
    "Contributing"; "License"; "Contact" ].

(** ** Sample inputs

    A public repository without description and license. *)
Definition demo : Descriptor :=
  mkDescriptor "demo" None false 5 1 (Some "Go") [] None [ "Go" ]
    [ "main.go"; "README.md" ] "https://github.com/octocat/demo"
    "2024-01-01T00:00:00Z" "2024-02-01T00:00:00Z" 0 5 "main" "No commits yet".

Definition us_date (s : string) : string := "2/1/2024".

Definition backend_down (p : string) : GenResult :=
  GenerateRejected "429 Too Many Requests".

(** An answer of the backend that holds no candidate: [response.text()]
    returns the empty string. *)
Definition backend_blank (p : string) : GenResult :=
  TextReturned "".

End Generator.

(* ===================================================================== *)
(** * The API handlers *)
(* ===================================================================== *)

Module Api.
Import Sanitizer Aggregator.

(** ** [parseInt] *)

(** The white space [parseInt] skips, among single bytes: tab, line
    feed, vertical tab, form feed, carriage return and space. *)
Definition is_space (c : ascii) : bool :=
  let n := nat_of_ascii c in
  ((9 <=? n)%nat && (n <=? 13)%nat) || (n =? 32)%nat.

(** The first byte of the other white space characters in UTF-8. *)
Definition leads_space (c : ascii) : bool :=
  let n := nat_of_ascii c in
  (n =? 194)%nat || (n =? 225)%nat || (n =? 226)%nat || (n =? 227)%nat
  || (n =? 239)%nat.

(** U+00A0, the no-break space. *)
Definition is_space2 (c1 c2 : ascii) : bool :=
  (nat_of_ascii c1 =? 194)%nat && (nat_of_ascii c2 =? 160)%nat.

(** U+1680; U+2000 to U+200A, U+2028, U+2029, U+202F; U+205F; U+3000;
    U+FEFF. *)
Definition is_space3 (c1 c2 c3 : ascii) : bool :=
  let a := nat_of_ascii c1 in
  let b := nat_of_ascii c2 in
  let c := nat_of_ascii c3 in
  ((a =? 225) && (b =? 154) && (c =? 128))%nat
  || ((a =? 226) && (b =? 128)
      && (((128 <=? c) && (c <=? 138)) || (c =? 168) || (c =? 169) || (c =? 175)))%nat
  || ((a =? 226) && (b =? 129) && (c =? 159))%nat
  || ((a =? 227) && (b =? 128) && (c =? 128))%nat
  || ((a =? 239) && (b =? 187) && (c =? 191))%nat.

(** The text after its leading white space and line terminators. *)
Fixpoint skip_spaces (s : string) : string :=
  match s with
  | EmptyString => s
  | String c1 s1 =>
      if is_space c1 then skip_spaces s1
      else if leads_space c1 then
        match s1 with
        | String c2 s2 =>
            if is_space2 c1 c2 then skip_spaces s2
            else
              match s2 with
              | String c3 s3 =>
                  if is_space3 c1 c2 c3 then skip_spaces s3 else s
              | EmptyString => s
              end
        | EmptyString => s
        end
      else s
  end.

Definition digit_value (c : ascii) : option nat :=
  let n := nat_of_ascii c in
  if ((48 <=? n) && (n <=? 57))%nat then Some (n - 48)%nat
  else if ((97 <=? n) && (n <=? 122))%nat then Some (n - 87)%nat
  else if ((65 <=? n) && (n <=? 90))%nat then Some (n - 55)%nat
  else None.

(** The value of the longest prefix of digits of the radix; [None] when
    there is no digit. *)
Fixpoint digits (radix : nat) (s : string) (acc : option Z) : option Z :=
  match s with
  | String c s' =>
      match digit_value c with
      | Some d =>
          if (d <? radix)%nat then
            digits radix s'
              (Some (match acc with Some a => a | None => 0 end
                     * Z.of_nat radix + Z.of_nat d)%Z)
          else acc
      | None => acc
      end
  | EmptyString => acc
  end.

Definition unsigned_part (s : string) : option Z :=
  match s with
  | String "0" (String "x" s') => digits 16 s' None
  | String "0" (String "X" s') => digits 16 s' None
  | _ => digits 10 s None
  end.

(** [parseInt(s)] without a radix; [None] is [NaN].  The result is the
    integer the digits denote; the number the code works with is that
    integer rounded to a double ([to_double] below), which is taken
    where the number is written out.  Comparing with the length of an
    array, which is below 2^32, gives the same answer on the integer and
    on the double. *)
Definition parseInt (s : string) : option Z :=
  match skip_spaces s with
  | String "-" s' => option_map Z.opp (unsigned_part s')
  | String "+" s' => unsigned_part s'
  | s' => unsigned_part s'
  end.

(** ** [POST /api/generate-readme] *)

Definition statusCode (message : string) : nat :=
  if Js.includes message "Authentication" then 401
  else if Js.includes message "rate limit" then 429
  else if Js.includes message "not found" then 404
  else 500.

Definition requiresAuth (message : string) : bool :=
  Js.includes message "login" || Js.includes message "Authentication".

Definition json_of (v : option string) : Json :=
  match v with
  | Some s => JString s
  | None => JNull
  end.

(** A response sent with [res.status(code).json(body)]; [res.json] is the
    override installed by the sanitizer middleware. *)
Record JsonResponse : Type := mkJsonResponse {
  code : nat;
  body : Json
}.

Definition res_json (status : nat) (data : Json) : JsonResponse :=
  mkJsonResponse status (sanitize data).

(** The answers of the [catch] block and of the success path. *)
Definition error_response (message : string) : JsonResponse :=
  res_json (statusCode message)
    (JObject [ ("error", JString message);
               ("requiresAuth", JBool (requiresAuth message)) ]).

Definition success_response (readme : string) (d : Descriptor) : JsonResponse :=
  res_json 200
    (JObject [
       ("success", JBool true);
       ("readme", JString readme);
       ("repoData", JObject [
          ("name", JString (name d));
          ("stars", JNumber (Z.of_nat (stars d)));
          ("language", json_of (language d));
          ("description", json_of (description d));
          ("private", JBool (private d));
          ("forks", JNumber (Z.of_nat (forks d))) ]) ]).

(** [req.session.accessToken || null] *)
Definition bearer_of (session : Auth.Session) : option string :=
  if Js.truthy (Auth.accessToken session) then Auth.accessToken session
  else None.

Section GenerateReadme.
Variable toLocaleDateString : string -> string.
(** [parseGitHubUrl], a regular-expression match on the URL. *)
Variable parseGitHubUrl : string -> option (string * string).
(** GitHub as seen by one request: how the four calls for an owner, a
    repository and a bearer token settle. *)
Variable github : string -> string -> option string -> Fetches.
Variable backend : string -> Generator.GenResult.

Definition generate_readme (session : Auth.Session) (repoUrl : option string)
    : JsonResponse :=
  if negb (Js.truthy repoUrl) then
    res_json 400 (JObject [("error", JString "Repository URL is required")])
  else
    match parseGitHubUrl (Js.interp repoUrl) with
    | None =>
        res_json 400 (JObject [("error", JString "Invalid GitHub repository URL")])
    | Some (owner, repo) =>
        let accessToken := bearer_of session in
        match fetchRepoData (github owner repo accessToken) with
        | inl repoData =>
            success_response
              (Generator.generateReadme toLocaleDateString backend repoData)
              repoData
        | inr message => error_response message
        end
    end.
End GenerateReadme.

(** ** [GET /api/repositories] *)

(** The members of one entry of GitHub's answer that are copied. *)
Record UpstreamRepo : Type := mkUpstreamRepo {
  ur_name : string;
  ur_full_name : string;
  ur_description : option string;
  ur_private : bool;
  ur_html_url : string;
  ur_language : option string;
  ur_stargazers_count : nat;
  ur_updated_at : string
}.

Definition repo_json (r : UpstreamRepo) : Json :=
  JObject [
    ("name", JString (ur_name r));
    ("full_name", JString (ur_full_name r));
    ("description", json_of (ur_description r));
    ("private", JBool (ur_private r));
    ("url", JString (ur_html_url r));
    ("language", json_of (ur_language r));
    ("stars", JNumber (Z.of_nat (ur_stargazers_count r)));
    ("updated_at", JString (ur_updated_at r)) ].

(** [parseInt(q)] for a query member with a numeric default:
    a string is parsed, a structured member through its [ToString]. *)
Definition parseInt_query (q : Auth.QueryParam) (dflt : Z) : option Z :=
  match q with
  | Auth.QUndefined => Some dflt
  | Auth.QString s => parseInt s
  | Auth.QStructured s => parseInt s
  end.

(** The double nearest to an integer, ties to the even mantissa;
    [None] when it is infinite. *)
Definition to_double (z : Z) : option Z :=
  let m := Z.abs z in
  if (m <? 2 ^ 53)%Z then Some z
  else
    let e := (Z.log2 m - 52)%Z in
    let q := Z.shiftr m e in
    let r := (m - Z.shiftl q e)%Z in
    let half := Z.shiftl 1 (e - 1) in
    let q' := if (half <? r)%Z || ((r =? half)%Z && Z.odd q)
              then (q + 1)%Z else q in
    let v := Z.shiftl q' e in
    if (v <? 2 ^ 1024)%Z then Some (Z.sgn z * v)%Z else None.

(** A number as [JSON.stringify] writes it: [NaN] and the infinities
    become [null]. *)
Definition json_of_number (n : option Z) : Json :=
  match n with
  | Some z =>
      match to_double z with
      | Some v => JNumber v
      | None => JNull
      end
  | None => JNull
  end.

(** [repos.length === parseInt(per_page)] *)
Definition length_is (n : nat) (v : option Z) : bool :=
  match v with
  | Some z => Z.eqb (Z.of_nat n) z
  | None => false
  end.

(** The handler behind [requireAuth]; [upstream] is how the request to
    [/user/repos] with the query's paging settles. *)
Definition repositories (session : Auth.Session)
    (per_page page : Auth.QueryParam)
    (upstream : Settled (list UpstreamRepo)) : JsonResponse :=
  if negb (Js.truthy (Auth.accessToken session)) then
    res_json 401 (JObject [("error", JString "Authentication required")])
  else
    match upstream with
    | Fulfilled data =>
        let repos := map repo_json data in
        res_json 200
          (JObject [
             ("repositories", JArray repos);
             ("total", JNumber (Z.of_nat (length repos)));
             ("page", json_of_number (parseInt_query page 1));
             ("hasMore", JBool (length_is (length repos) (parseInt_query per_page 30))) ])
    | RejectedWith e =>
        match response_status e with
        | Some 401 =>
            res_json 401
              (JObject [("error", JString "Authentication expired. Please login again.")])
        | _ => res_json 500 (JObject [("error", JString "Failed to fetch repositories")])
        end
    end.

(** The member [key] of a JSON object. *)
Fixpoint assoc (key : string) (props : list (string * Json)) : option Json :=
  match props with
  | [] => None
  | (k, v) :: props' => if String.eqb k key then Some v else assoc key props'
  end.

Definition member (key : string) (v : Json) : option Json :=
  match v with
  | JObject props => assoc key props
  | _ => None
  end.

(** ** Sample inputs *)

Definition logged_in : Auth.Session :=
  Auth.mkSession None (Some "gho_abc") (Some Auth.octocat).

(** U+00A0 as the query parser hands it over, from [%C2%A0]. *)
Definition nbsp : string := String "194" (String "160" "").

Definition two_repos : list UpstreamRepo :=
  [ mkUpstreamRepo "demo" "octocat/demo" None false
      "https://github.com/octocat/demo" (Some "Go") 5 "2024-02-01T00:00:00Z";
    mkUpstreamRepo "notes" "octocat/notes" (Some "Notes") true
      "https://github.com/octocat/notes" None 0 "2024-03-01T00:00:00Z" ].

Definition parse_demo (url : string) : option (string * string) :=
  Some ("octocat", "demo").

Definition github_demo (owner repo : string) (bearer : option string) : Fetches :=
  mkFetches (Fulfilled sample_profile) (Fulfilled [("Go", 1024)])
    (Fulfilled (Listing [ mkContentItem "main.go"; mkContentItem "README.md" ]))
    (Fulfilled (CommitList [])) false.

End Api.

(* ===================================================================== *)
(** * Parsing the repository URL *)
(* ===================================================================== *)

Module Url.

Definition is_slash (c : ascii) : bool := Ascii.eqb c "/".

(** The longest prefix without a slash, as [[^\/]*] takes it, and what
    is left. *)
Fixpoint span_segment (s : string) : string * string :=
  match s with
  | EmptyString => ("", "")
  | String c s' =>
      if is_slash c then ("", s)
      else let (seg, rest) := span_segment s' in (String c seg, rest)
  end.

Fixpoint drop (n : nat) (s : string) : string :=
  match n, s with
  | S n', String _ s' => drop n' s'
  | _, _ => s
  end.

(** An attempt to match [/github\.com\/([^\/]+)\/([^\/]+)/] at the start
    of [s].  Both groups are greedy and can give nothing back: the
    character after a maximal run of non-slashes is a slash or the end
    of the text. *)
Definition match_at (s : string) : option (string * string) :=
  if String.prefix "github.com/" s then
    let (owner, rest) := span_segment (drop 11 s) in
    match owner, rest with
    | String _ _, String c rest' =>
        if is_slash c then
          let (repo, _) := span_segment rest' in
          match repo with
          | String _ _ => Some (owner, repo)
          | EmptyString => None
          end
        else None
    | _, _ => None
    end
  else None.

(** [url.match(...)]: the groups of the leftmost match. *)
Fixpoint regex_match (s : string) : option (string * string) :=
  match match_at s with
  | Some m => Some m
  | None =>
      match s with
      | EmptyString => None
      | String _ s' => regex_match s'
      end
  end.

(** [s.replace(pat, '')] with a string pattern: the first occurrence
    goes. *)
Fixpoint remove_first (pat s : string) : string :=
  if String.prefix pat s then drop (String.length pat) s
  else
    match s with
    | EmptyString => ""
    | String c s' => String c (remove_first pat s')
    end.

Definition parseGitHubUrl (url : string) : option (string * string) :=
  match regex_match url with
  | None => None
  | Some (owner, repo) => Some (owner, remove_first ".git" repo)
  end.

(** A text without a slash. *)
Fixpoint slash_free (s : string) : bool :=
  match s with
  | EmptyString => true
  | String c s' => negb (is_slash c) && slash_free s'
  end.

End Url.

(* ===================================================================== *)
(** * The logging sanitizer *)
(* ===================================================================== *)

Module SafeLog.
Import Sanitizer.

(** The replacer of [safeLog]: the key alone decides, whatever the
    value is; a string is also replaced when it holds [ghp_]. *)
Definition safe_replacer (key : string) (value : Json) : Json :=
  if Js.includes (Js.toLowerCase key) "token" ||
     Js.includes (Js.toLowerCase key) "secret" ||
     match value with
     | JString s => Js.includes s "ghp_"
     | _ => false
     end
  then JString REDACTED
  else value.

(** [JSON.parse(JSON.stringify(value, replacer))] for the property
    [key]: a replaced value is a string and is written as it is, a kept
    array or object is written member by member. *)
Fixpoint safe_clean (key : string) (value : Json) : Json :=
  if Js.includes (Js.toLowerCase key) "token" ||
     Js.includes (Js.toLowerCase key) "secret"
  then JString REDACTED
  else
    match value with
    | JArray items =>
        JArray
          ((fix elems (i : nat) (l : list Json) : list Json :=
              match l with
              | [] => []
              | x :: l' => safe_clean (index_key i) x :: elems (S i) l'
              end) 0 items)
    | JObject props =>
        JObject
          ((fix members (l : list (string * Json)) : list (string * Json) :=
              match l with
              | [] => []
              | (k, v) :: l' => (k, safe_clean k v) :: members l'
              end) props)
    | _ => safe_replacer key value
    end.

(** [data && typeof data === 'object'] *)
Definition is_object (data : option Json) : bool :=
  match data with
  | Some (JArray _) => true
  | Some (JObject _) => true
  | _ => false
  end.

(** [safeLog(message, data)]: the arguments [console.log] is called
    with. *)
Definition safeLog (message : string) (data : option Json)
    : string * option Json :=
  match data with
  | Some d => if is_object data then (message, Some (safe_clean "" d))
              else (message, None)
  | None => (message, None)
  end.

Definition safe_pair (kv : string * Json) : string * Json :=
  (fst kv, safe_clean (fst kv) (snd kv)).

End SafeLog.

(* ===================================================================== *)
(** * The server as wired *)
(* ===================================================================== *)

Module Server.
Import Sanitizer Aggregator.

(** [POST /api/generate-readme] with the URL parser of the server. *)
Definition generate_readme_route
    (toLocaleDateString : string -> string)
    (github : string -> string -> option string -> Fetches)
    (backend : string -> Generator.GenResult)
    (session : Auth.Session) (repoUrl : option string) : Api.JsonResponse :=
  Api.generate_readme toLocaleDateString Url.parseGitHubUrl github backend
    session repoUrl.

(** A string that triggers the value test of the response sanitizer. *)
Definition has_token_pattern (s : string) : bool :=
  Js.includes s "ghp_" || Js.includes s "gho_" || Js.includes s "ghs_".

(** The user object the callback stored, as JSON; [None] is the
    [null] GitHub sends for a member that is not set. *)
Definition user_json (u : Auth.User) : Json :=
  JObject [
    ("login", Api.json_of (Auth.login u));
    ("name", Api.json_of (Auth.name u));
    ("avatar_url", Api.json_of (Auth.avatar_url u)) ].

(** [GET /auth/status]: the answer sent, through the [res.json] of the
    sanitizer. *)
Definition auth_status (session : Auth.Session) : Api.JsonResponse :=
  Api.res_json 200
    (JObject [
       ("authenticated", JBool (fst (Auth.status session)));
       ("user", match snd (Auth.status session) with
                | Some u => user_json u
                | None => JNull
                end) ]).

(** A member of the user as the client reads it. *)
Definition shown (v : option string) : Json :=
  match v with
  | Some s => JString (if has_token_pattern s then REDACTED else s)
  | None => JNull
  end.

(** [!v] for a JSON value. *)
Definition falsy_json (v : Json) : bool :=
  match v with
  | JNull => true
  | JBool b => negb b
  | JNumber n => Z.eqb n 0
  | JString s => String.eqb s ""
  | JArray _ => false
  | JObject _ => false
  end.

(** The handler of [POST /api/generate-readme] on the body
    [express.json()] parsed: [repoUrl] is absent or any JSON value.  A
    value that is not a string has no [match] method: when it is not
    falsy, [parseGitHubUrl] throws the [TypeError] below (the message
    is the one of V8), which the [catch] block of the handler
    answers. *)
Definition generate_readme_request
    (toLocaleDateString : string -> string)
    (github : string -> string -> option string -> Fetches)
    (backend : string -> Generator.GenResult)
    (session : Auth.Session) (repoUrl : option Json) : Api.JsonResponse :=
  match repoUrl with
  | None =>
      generate_readme_route toLocaleDateString github backend session None
  | Some (JString s) =>
      generate_readme_route toLocaleDateString github backend session (Some s)
  | Some v =>
      if falsy_json v then
        Api.res_json 400 (JObject [("error", JString "Repository URL is required")])
      else Api.error_response "url.match is not a function"
  end.

End Server.

(* ===================================================================== *)
(** * The quality meter of the page *)
(* ===================================================================== *)

Module Frontend.

Section Quality.
(** [readme.length]: the number of UTF-16 code units of the text. *)
Variable js_length : string -> nat.

(** One test of [calculateQuality]: twenty points and a badge when it
    holds. *)
Definition award (cond : bool) (icon text : string)
    (acc : nat * list (string * string)) : nat * list (string * string) :=
  if cond then (fst acc + 20, (snd acc ++ [(icon, text)])%list) else acc.

(** [calculateQuality(readme)]: the score shown, in percent, and the
    badges listed under it. *)
Definition calculateQuality (readme : string) : nat * list (string * string) :=
  let q0 := (0, []) in
  let q1 := award (Js.includes readme "##") "fa-heading" "structured" q0 in
  let q2 := award (Js.includes readme "```") "fa-code" "code examples" q1 in
  let q3 := award (Js.includes readme "![") "fa-image" "badges" q2 in
  let q4 := award (Js.includes (Js.toLowerCase readme) "installation")
              "fa-download" "install guide" q3 in
  award (1500 <? js_length readme)%nat "fa-file-alt" "comprehensive" q4.
End Quality.

End Frontend.

(* ===================================================================== *)
(** * Further sample inputs *)
(* ===================================================================== *)

Module Samples.
Import Aggregator.

(** A private JavaScript repository with twelve files in its root. *)
Definition webapp : Descriptor :=
  mkDescriptor "webapp" (Some "A web application") true 12 3 (Some "JavaScript")
    [ "web"; "express" ] (Some "MIT License") [ "JavaScript"; "CSS"; "HTML" ]
    [ ".gitignore"; "README.md"; "index.html"; "package.json"; "server.js";
      "style.css"; "script.js"; "test.js"; "LICENSE"; "Dockerfile";
      "Makefile"; "notes.txt" ]
    "https://github.com/octocat/webapp" "2023-05-01T00:00:00Z"
    "2024-02-01T00:00:00Z" 2 12 "main" "Initial commit".

(** GitHub as an anonymous visitor sees a private repository: the
    profile and the languages are not found, the profile first. *)
Definition not_found : AxiosError :=
  mkAxiosError (Some 404) (Some "Not Found") "Request failed with status code 404".

Definition github_hidden (owner repo : string) (bearer : option string) : Fetches :=
  mkFetches (RejectedWith not_found) (RejectedWith not_found)
    (RejectedWith not_found) (RejectedWith not_found) false.

(** [readme.length] for texts of single-byte characters. *)
Definition ascii_length (s : string) : nat := String.length s.

End Samples.

(* ===================================================================== *)
(** * Properties of the authorization routes *)
(* ===================================================================== *)

Module AuthFacts.
Import Handler Auth.

Ltac run_handler :=
  unfold callback, start, await, record_call, set_oauthState, set_accessToken,
    set_user, try_catch, bind, get, modify, ret, throw; simpl.

(** The callback never writes [oauthState], whatever path it takes. *)
Lemma callback_preserves_oauthState cfg up code state w :
  oauthState (session (snd (callback cfg up code state w)))
  = oauthState (session w).
Proof.
  run_handler.
  destruct (strict_neq state (oauthState (session w))); [reflexivity|].
  destruct (Js.truthy (GITHUB_REDIRECT_URI cfg)); [|reflexivity]. simpl.
  destruct (token_endpoint up code) as [tok|m]; simpl; [|reflexivity].
  destruct (Js.truthy tok); simpl; [|reflexivity].
  destruct (user_endpoint up (Js.interp tok)); reflexivity.
Qed.

(** The first test of the callback decides alone whether the answer is
    the invalid-state redirect. *)
Lemma callback_invalid_state_iff cfg up code state w :
  fst (callback cfg up code state w) = inl invalid_state
  <-> strict_neq state (oauthState (session w)) = true.
Proof.
  run_handler.
  destruct (strict_neq state (oauthState (session w))); [tauto|].
  split; [|discriminate].
  destruct (Js.truthy (GITHUB_REDIRECT_URI cfg)); simpl; [|discriminate].
  destruct (token_endpoint up code) as [tok|m]; simpl; [|discriminate].
  destruct (Js.truthy tok); simpl; [|discriminate].
  destruct (user_endpoint up (Js.interp tok)); discriminate.
Qed.

(** C1, as stated, fails: after a successful callback the nonce is still
    in the session, and replaying the same code and state succeeds
    again instead of being rejected as an invalid state. *)
Lemma oauth_state_replay_succeeds :
  let first := callback cfg_ok github_accepts (QString "code") (QString "5f2a") started in
  let second := callback cfg_ok github_accepts (QString "code") (QString "5f2a") (snd first) in
  fst first = inl auth_success /\
  oauthState (session (snd first)) = Some "5f2a" /\
  fst second = inl auth_success /\
  fst second <> inl invalid_state.
Proof.
  vm_compute. repeat split; discriminate.
Qed.

(** C1, amended: a callback whose state matches the session leaves
    [oauthState] as it was, so a replay of the same state passes the
    state test again and is never answered with the invalid-state
    redirect, whatever GitHub answers the second time. *)
Theorem oauth_state_not_consumed cfg up up' code state w :
  strict_neq state (oauthState (session w)) = false ->
  let w1 := snd (callback cfg up code state w) in
  oauthState (session w1) = oauthState (session w) /\
  fst (callback cfg up' code state w1) <> inl invalid_state.
Proof.
  intros Hmatch w1. split.
  - apply callback_preserves_oauthState.
  - intros Hbad. apply callback_invalid_state_iff in Hbad.
    unfold w1 in Hbad. rewrite callback_preserves_oauthState in Hbad.
    congruence.
Qed.

Lemma oauth_state_not_consumed_witness :
  strict_neq (QString "5f2a") (oauthState (session started)) = false /\
  let w1 := snd (callback cfg_ok github_accepts (QString "code") (QString "5f2a") started) in
  oauthState (session w1) = oauthState (session started) /\
  fst (callback cfg_ok github_identity_down (QString "code") (QString "5f2a") w1)
    <> inl invalid_state.
Proof.
  split; [reflexivity|].
  apply (oauth_state_not_consumed cfg_ok github_accepts github_identity_down
           (QString "code") (QString "5f2a") started).
  reflexivity.
Defined.

(** C2, as stated, fails: when the token exchange succeeds and the
    identity request fails, the answer is the failure redirect but the
    session keeps the access token, without a user, and [/auth/status]
    then reports it as authenticated. *)
Lemma identity_failure_keeps_token :
  let r := callback cfg_ok github_identity_down (QString "code") (QString "5f2a") started in
  accessToken (session started) = None /\
  fst r = inl auth_failed /\
  accessToken (session (snd r)) = Some "gho_abc" /\
  user (session (snd r)) = None /\
  status (session (snd r)) = (true, None).
Proof.
  vm_compute. repeat split.
Qed.

(** C2, amended: once the state matches and the redirect URI is
    configured, the callback leaves the session exactly as it was when
    the token exchange rejects or returns no token; when the identity
    request rejects, the answer is the failure redirect and the session
    differs from the prior one in [accessToken] alone, which holds the
    new token; the user is stored only together with the token, on the
    success path. *)
Theorem callback_commit_points cfg up code state w :
  strict_neq state (oauthState (session w)) = false ->
  Js.truthy (GITHUB_REDIRECT_URI cfg) = true ->
  let r := callback cfg up code state w in
  match token_endpoint up code with
  | Rejected _ => fst r = inl auth_failed /\ session (snd r) = session w
  | Resolved tok =>
      if Js.truthy tok then
        match user_endpoint up (Js.interp tok) with
        | Rejected _ =>
            fst r = inl auth_failed /\
            session (snd r) = with_token (session w) (Js.interp tok)
        | Resolved u =>
            fst r = inl auth_success /\
            session (snd r) = with_token_and_user (session w) (Js.interp tok) u
        end
      else fst r = inl auth_failed /\ session (snd r) = session w
  end.
Proof.
  intros Hmatch Hcfg. run_handler. rewrite Hmatch, Hcfg. simpl.
  destruct (token_endpoint up code) as [tok|m]; simpl; [|split; reflexivity].
  destruct (Js.truthy tok); simpl; [|split; reflexivity].
  destruct (user_endpoint up (Js.interp tok)); simpl; split; reflexivity.
Qed.

Lemma callback_commit_points_witness :
  let r := callback cfg_ok github_identity_down (QString "code") (QString "5f2a") started in
  fst r = inl auth_failed /\
  session (snd r) = with_token (session started) "gho_abc".
Proof.
  apply (callback_commit_points cfg_ok github_identity_down
           (QString "code") (QString "5f2a") started); reflexivity.
Defined.

(** C3: a callback whose state differs from the session's [oauthState]
    answers with the fixed invalid-state redirect and changes nothing:
    the session, hence [accessToken], is as before, and no request is
    added to the upstream log, so no token exchange is attempted. *)
Theorem callback_rejects_foreign_state cfg up code state w :
  strict_neq state (oauthState (session w)) = true ->
  callback cfg up code state w = (inl invalid_state, w).
Proof.
  intros Hneq. run_handler. rewrite Hneq. reflexivity.
Qed.

Lemma callback_rejects_foreign_state_witness :
  callback cfg_ok github_accepts (QString "code") (QString "forged") started
  = (inl invalid_state, started).
Proof.
  apply callback_rejects_foreign_state. reflexivity.
Defined.

(** C5, as stated, fails: with no redirect URI the handler answers 500,
    but it has already written the nonce into the session. *)
Lemma start_unconfigured_mutates_session :
  let r := start cfg_no_redirect "5f2a" fresh in
  fst r = inl (SendStatus 500 config_error) /\
  oauthState (session fresh) = None /\
  oauthState (session (snd r)) = Some "5f2a" /\
  session (snd r) <> session fresh.
Proof.
  vm_compute. repeat split. discriminate.
Qed.

(** C5, amended: when the redirect URI is unset, [start] answers with
    status 500 and the configuration-error text, issues no redirect and
    no upstream request, and changes the session in [oauthState] only,
    which holds the new nonce; [accessToken] and [user] are as
    before. *)
Theorem start_unconfigured cfg nonce w :
  Js.truthy (GITHUB_REDIRECT_URI cfg) = false ->
  start cfg nonce w =
    (inl (SendStatus 500 config_error),
     mkWorld (mkSession (Some nonce) (accessToken (session w)) (user (session w)))
             (calls w)).
Proof.
  intros Hcfg. run_handler. rewrite Hcfg. reflexivity.
Qed.

Lemma start_unconfigured_witness :
  start cfg_no_redirect "5f2a" fresh =
    (inl (SendStatus 500 config_error),
     mkWorld (mkSession (Some "5f2a") None None) []).
Proof.
  apply (start_unconfigured cfg_no_redirect "5f2a" fresh). reflexivity.
Defined.

End AuthFacts.

(* ===================================================================== *)
(** * Properties of the response sanitizer *)
(* ===================================================================== *)

Module SanitizerFacts.
Import Sanitizer.

(** The walk is the replacer followed by the descent into what it
    returned. *)
Lemma clean_string key s :
  clean key (JString s) = replacer key (JString s).
Proof. reflexivity. Qed.

Lemma replacer_keeps_structures key v :
  (forall s, v <> JString s) -> replacer key v = v.
Proof.
  intros Hv. destruct v; try reflexivity. exfalso. apply (Hv s). reflexivity.
Qed.

Lemma members_of_clean_array i items :
  indexed i
    ((fix elems (i : nat) (l : list Json) : list Json :=
        match l with
        | [] => []
        | x :: l' => clean (index_key i) x :: elems (S i) l'
        end) i items)
  = map clean_pair (indexed i items).
Proof.
  revert i. induction items as [|x items IH]; intros i; simpl.
  - reflexivity.
  - rewrite IH. reflexivity.
Qed.

Lemma members_of_clean_object props :
  (fix members (l : list (string * Json)) : list (string * Json) :=
     match l with
     | [] => []
     | (k, v) :: l' => (k, clean k v) :: members l'
     end) props
  = map clean_pair props.
Proof.
  induction props as [|[k v] props IH]; simpl.
  - reflexivity.
  - rewrite IH. reflexivity.
Qed.

(** The cleaned value has the members of the original, each cleaned
    under its own key. *)
Lemma members_of_clean key v :
  members_of (clean key v) = map clean_pair (members_of v).
Proof.
  destruct v; simpl; try reflexivity.
  - destruct (looks_secret key s); reflexivity.
  - apply members_of_clean_array.
  - apply members_of_clean_object.
Qed.

(** Cleaning commutes with addressing: the pair found at a path of the
    cleaned payload is the cleaned pair found there in the original. *)
Lemma pair_at_clean path : forall key v,
  pair_at key (clean key v) path = option_map clean_pair (pair_at key v path).
Proof.
  induction path as [|i path IH]; intros key v; simpl.
  - reflexivity.
  - rewrite members_of_clean, nth_error_map.
    destruct (nth_error (members_of v) i) as [[k c]|]; simpl.
    + apply IH.
    + reflexivity.
Qed.

Lemma looks_secret_iff key s :
  looks_secret key s = key_is_sensitive key || value_has_token_prefix (JString s).
Proof.
  unfold looks_secret, key_is_sensitive, value_has_token_prefix.
  destruct (Js.includes s "ghp_"), (Js.includes s "gho_"), (Js.includes s "ghs_"),
    (Js.includes (Js.toLowerCase key) "token"),
    (Js.includes (Js.toLowerCase key) "secret"); reflexivity.
Qed.

(** C4, as stated, fails: the values under the sensitive keys [secret],
    [tokens] and [tokenCount] are not strings and are not replaced by
    the marker; the string inside the object under [secret] is sent as
    it is. *)
Lemma sensitive_key_with_structure_not_redacted :
  pair_at "" leaky [3] = Some ("tokenCount", JNumber 2) /\
  key_is_sensitive "tokenCount" = true /\
  pair_at "" (sanitize leaky) [3] = Some ("tokenCount", JNumber 2) /\
  pair_at "" leaky [1] = Some ("secret", JObject [("value", JString "hunter2")]) /\
  key_is_sensitive "secret" = true /\
  pair_at "" (sanitize leaky) [1]
    = Some ("secret", JObject [("value", JString "hunter2")]) /\
  pair_at "" (sanitize leaky) [2; 0] = Some ("0", JString "abc").
Proof.
  vm_compute. repeat split.
Qed.

(** C4, amended: in any payload and at any depth, a key/value pair whose
    value is a string, and whose key in lower case contains "token" or
    "secret" or whose value contains one of [ghp_], [gho_], [ghs_], is
    found at the same place of the sanitized payload with the marker as
    its value; a pair whose value is not a string is found there with
    its value cleaned member by member, never replaced as a whole. *)
Theorem sanitize_redacts_string_pairs data path k v :
  pair_at "" data path = Some (k, v) ->
  match v with
  | JString s =>
      key_is_sensitive k || value_has_token_prefix v = true ->
      pair_at "" (sanitize data) path = Some (k, JString REDACTED)
  | _ =>
      pair_at "" (sanitize data) path = Some (k, clean k v) /\
      clean k v <> JString REDACTED
  end.
Proof.
  intros Hat. unfold sanitize. rewrite pair_at_clean, Hat.
  destruct v as [| b | n | s | items | props];
    try (split; [reflexivity|discriminate]).
  intros Hsecret. rewrite <- looks_secret_iff in Hsecret.
  unfold clean_pair. simpl. rewrite Hsecret. reflexivity.
Qed.

Lemma sanitize_redacts_string_pairs_witness :
  pair_at "" (sanitize leaky) [2; 1] = Some ("1", JString REDACTED).
Proof.
  apply (sanitize_redacts_string_pairs leaky [2; 1] "1"
           (JString "old gho_16C7e42F292c69")); reflexivity.
Defined.

End SanitizerFacts.

(* ===================================================================== *)
(** * Properties of the aggregator and of the API handlers *)
(* ===================================================================== *)

Module ApiFacts.
Import Sanitizer Aggregator Api.

(** [Promise.all] rejects only with the error of a required call. *)
Lemma promise_all_rejects f e :
  promise_all f = inr e ->
  repo_call f = RejectedWith e \/ languages_call f = RejectedWith e.
Proof.
  unfold promise_all.
  destruct (repo_call f) as [r|e1], (languages_call f) as [l|e2];
    intros H; inversion H; subst; auto.
  destruct (languages_rejects_first f); auto.
Qed.

Lemma fetchRepoData_rejects f e :
  promise_all f = inr e ->
  fetchRepoData f = inr (error_message (classify e)).
Proof.
  intros H. unfold fetchRepoData. rewrite H. reflexivity.
Qed.

(** The answer of the [catch] block for the four fixed messages. *)
Lemma fixed_message_responses :
  (code (error_response (error_message AuthExpiredError)) = 401 /\
   member "requiresAuth" (body (error_response (error_message AuthExpiredError)))
     = Some (JBool true)) /\
  (code (error_response (error_message RateLimitError)) = 429 /\
   member "requiresAuth" (body (error_response (error_message RateLimitError)))
     = Some (JBool false)) /\
  (code (error_response (error_message PermissionError)) = 500 /\
   member "requiresAuth" (body (error_response (error_message PermissionError)))
     = Some (JBool false)) /\
  (code (error_response (error_message NotFoundError)) = 404 /\
   member "requiresAuth" (body (error_response (error_message NotFoundError)))
     = Some (JBool true)).
Proof.
  vm_compute. repeat split.
Qed.

(** The message built for an unclassified failure is searched like the
    others: the fixed prefix holds none of the three words, so the
    status is decided by the text of the cause. *)
Lemma unknown_error_status cause :
  statusCode (error_message (UnknownFetchError cause)) = statusCode cause.
Proof.
  unfold statusCode, error_message. cbn. reflexivity.
Qed.

Lemma code_error_response m : code (error_response m) = statusCode m.
Proof. reflexivity. Qed.

(** The classification of the [catch] block of [fetchRepoData] by the
    status of the upstream answer. *)
Lemma classify_401 e :
  response_status e = Some 401 -> classify e = AuthExpiredError.
Proof. intros H. unfold classify. rewrite H. reflexivity. Qed.

Lemma classify_403 e :
  response_status e = Some 403 ->
  classify e
  = if mentions_rate_limit e then RateLimitError else PermissionError.
Proof. intros H. unfold classify. rewrite H. reflexivity. Qed.

Lemma classify_404 e :
  response_status e = Some 404 -> classify e = NotFoundError.
Proof. intros H. unfold classify. rewrite H. reflexivity. Qed.

Lemma classify_other e :
  response_status e <> Some 401 ->
  response_status e <> Some 403 ->
  response_status e <> Some 404 ->
  classify e = UnknownFetchError (message e).
Proof.
  unfold classify. destruct (response_status e) as [n|]; [|reflexivity].
  intros H401 H403 H404.
  do 401 (destruct n as [|n]; [reflexivity|]).
  destruct n as [|n]; [exfalso; apply H401; reflexivity|].
  destruct n as [|n]; [reflexivity|].
  destruct n as [|n]; [exfalso; apply H403; reflexivity|].
  destruct n as [|n]; [exfalso; apply H404; reflexivity|].
  reflexivity.
Qed.

(** C6, as stated, fails: a profile call refused with 403 and no
    rate-limit text is classified as a permission error, and the
    handler answers it with status 500 and [requiresAuth] false, not
    with 403 and a login hint.  Nor has the unclassified kind one
    status: an upstream 500 is answered 500, and a failure whose text
    holds "not found" is answered 404. *)
Lemma permission_error_answered_500 :
  fetchRepoData profile_forbidden = inr (error_message PermissionError) /\
  code (error_response (error_message PermissionError)) = 500 /\
  code (error_response (error_message PermissionError)) <> 403 /\
  member "requiresAuth" (body (error_response (error_message PermissionError)))
    = Some (JBool false) /\
  classify server_error = UnknownFetchError (message server_error) /\
  code (error_response (error_message (classify server_error))) = 500 /\
  classify lookup_failed = UnknownFetchError (message lookup_failed) /\
  code (error_response (error_message (classify lookup_failed))) = 404.
Proof.
  vm_compute. repeat split. discriminate.
Qed.

(** C6, amended: when a required call (profile or languages) fails with
    error [e], the fetch fails with the message of the kind [e] is
    classified as: an upstream 401 is an expired authentication, a 403
    whose answer mentions "rate limit" a rate limit, any other 403 a
    permission error, a 404 a missing repository, and anything else,
    a failure without a response included, an unclassified failure
    that carries the text of [e].  The handler answers a permission
    error with status 500 and [requiresAuth] false, an expired
    authentication with 401 and the hint, a rate limit with 429 without
    it, a missing repository with 404 and the hint; an unclassified
    failure has the status the text of its cause selects: 401 when it
    contains "Authentication", else 429 when it contains "rate limit",
    else 404 when it contains "not found", else 500. *)
Theorem fetch_error_http_status f e :
  promise_all f = inr e ->
  (repo_call f = RejectedWith e \/ languages_call f = RejectedWith e) /\
  fetchRepoData f = inr (error_message (classify e)) /\
  (response_status e = Some 401 -> classify e = AuthExpiredError) /\
  (response_status e = Some 403 -> mentions_rate_limit e = true ->
   classify e = RateLimitError) /\
  (response_status e = Some 403 -> mentions_rate_limit e = false ->
   classify e = PermissionError) /\
  (response_status e = Some 404 -> classify e = NotFoundError) /\
  (response_status e <> Some 401 -> response_status e <> Some 403 ->
   response_status e <> Some 404 ->
   classify e = UnknownFetchError (message e)) /\
  let r := error_response (error_message (classify e)) in
  match classify e with
  | AuthExpiredError =>
      code r = 401 /\ member "requiresAuth" (body r) = Some (JBool true)
  | RateLimitError =>
      code r = 429 /\ member "requiresAuth" (body r) = Some (JBool false)
  | PermissionError =>
      code r = 500 /\ member "requiresAuth" (body r) = Some (JBool false)
  | NotFoundError =>
      code r = 404 /\ member "requiresAuth" (body r) = Some (JBool true)
  | UnknownFetchError cause =>
      code r
      = if Js.includes cause "Authentication" then 401
        else if Js.includes cause "rate limit" then 429
        else if Js.includes cause "not found" then 404
        else 500
  end.
Proof.
  intros Hrej.
  split; [apply promise_all_rejects, Hrej|].
  split; [apply fetchRepoData_rejects, Hrej|].
  split; [apply classify_401|].
  split; [intros H403 Hrate; rewrite classify_403, Hrate by exact H403; reflexivity|].
  split; [intros H403 Hrate; rewrite classify_403, Hrate by exact H403; reflexivity|].
  split; [apply classify_404|].
  split; [apply classify_other|].
  destruct (classify e) as [| | | |cause]; try apply fixed_message_responses.
  intros r. subst r. rewrite code_error_response, unknown_error_status.
  reflexivity.
Qed.

Lemma fetch_error_http_status_witness :
  fetchRepoData profile_forbidden = inr (error_message PermissionError) /\
  classify forbidden = PermissionError /\
  code (error_response (error_message PermissionError)) = 500.
Proof.
  pose proof (fetch_error_http_status profile_forbidden forbidden eq_refl)
    as [_ [Hfetch [_ [_ [Hperm [_ [_ Hstatus]]]]]]].
  split; [exact Hfetch|].
  split; [exact (Hperm eq_refl eq_refl)|].
  exact (proj1 Hstatus).
Defined.

(** C7: when the profile and the languages calls succeed and the
    directory listing and the latest-commit calls fail, the fetch
    returns a descriptor, with no file names and the text
    'No commits yet' for the last commit. *)
Theorem best_effort_failures_degrade profile langs e_contents e_commits first :
  exists d,
    fetchRepoData
      (mkFetches (Fulfilled profile) (Fulfilled langs)
                 (RejectedWith e_contents) (RejectedWith e_commits) first)
    = inl d /\
    files d = [] /\
    lastCommit d = "No commits yet".
Proof.
  eexists. unfold fetchRepoData, promise_all. simpl.
  split; [reflexivity|]. split; reflexivity.
Qed.

Lemma cleaned_items_length items : forall i,
  length
    ((fix elems (i : nat) (l : list Json) : list Json :=
        match l with
        | [] => []
        | x :: l' => clean (index_key i) x :: elems (S i) l'
        end) i items)
  = length items.
Proof.
  induction items as [|x items IH]; intros i; simpl.
  - reflexivity.
  - rewrite IH. reflexivity.
Qed.

Lemma length_is_true n v :
  length_is n v = true <-> v = Some (Z.of_nat n).
Proof.
  unfold length_is. destruct v as [z|].
  - rewrite Z.eqb_eq. split; intros H; [subst; reflexivity|].
    inversion H. reflexivity.
  - split; discriminate.
Qed.

(** On the sample page of two repositories asked with [per_page=2] the
    answer carries [total] 2 and [hasMore] true; asked without
    [per_page] it carries [hasMore] false. *)
Example repositories_sample_page :
  let r := repositories logged_in (Auth.QString "2") Auth.QUndefined
             (Fulfilled two_repos) in
  let r' := repositories logged_in Auth.QUndefined Auth.QUndefined
              (Fulfilled two_repos) in
  member "total" (body r) = Some (JNumber 2) /\
  member "hasMore" (body r) = Some (JBool true) /\
  member "page" (body r) = Some (JNumber 1) /\
  member "hasMore" (body r') = Some (JBool false).
Proof.
  vm_compute. repeat split.
Qed.

End ApiFacts.

(* ===================================================================== *)
(** * Properties of the document generator *)
(* ===================================================================== *)

Module GeneratorFacts.
Import Aggregator Generator.

Lemma append_nil_r (s : string) : s ++ "" = s.
Proof.
  induction s as [|c s IH]; simpl; [reflexivity | rewrite IH; reflexivity].
Qed.

Lemma append_assoc (a b c : string) : (a ++ b) ++ c = a ++ b ++ c.
Proof.
  induction a as [|x a IH]; simpl; [reflexivity | rewrite IH; reflexivity].
Qed.

(** ** [includes] finds what is there *)

Lemma prefix_append (h rest : string) : String.prefix h (h ++ rest) = true.
Proof.
  induction h as [|c h IH]; simpl.
  - destruct rest; reflexivity.
  - destruct (ascii_dec c c) as [_|Hne]; [exact IH | contradiction].
Qed.

Lemma includes_prefix (h s : string) :
  String.prefix h s = true -> Js.includes s h = true.
Proof.
  intros H. destruct s; cbn [Js.includes]; rewrite H; reflexivity.
Qed.

Lemma includes_append (before h rest : string) :
  Js.includes (before ++ h ++ rest) h = true.
Proof.
  induction before as [|c before IH].
  - change ("" ++ h ++ rest) with (h ++ rest).
    apply includes_prefix, prefix_append.
  - simpl. rewrite IH. apply orb_true_r.
Qed.

Lemma includes_weaken (before s h : string) :
  Js.includes s h = true -> Js.includes (before ++ s) h = true.
Proof.
  intros H. induction before as [|c before IH]; simpl.
  - exact H.
  - rewrite IH. apply orb_true_r.
Qed.

(** ** Strings occurring in order *)

Lemma oio_weaken_l hs s before :
  occurs_in_order hs s -> occurs_in_order hs (before ++ s).
Proof.
  intros H. destruct H as [s | h hs b rest H].
  - constructor.
  - rewrite <- append_assoc. constructor. exact H.
Qed.

Lemma oio_app hs1 s1 hs2 s2 :
  occurs_in_order hs1 s1 -> occurs_in_order hs2 s2 ->
  occurs_in_order (hs1 ++ hs2)%list (s1 ++ s2).
Proof.
  intros H1 H2. induction H1 as [s | h hs b rest H IH]; simpl.
  - apply oio_weaken_l. exact H2.
  - rewrite !append_assoc. constructor. exact IH.
Qed.

Lemma oio_weaken_r hs s rest :
  occurs_in_order hs s -> occurs_in_order hs (s ++ rest).
Proof.
  intros H. rewrite <- (app_nil_r hs). apply oio_app; [exact H | constructor].
Qed.

Lemma oio_includes hs s :
  occurs_in_order hs s -> Forall (fun h => Js.includes s h = true) hs.
Proof.
  induction 1 as [s | h hs b rest H IH]; constructor.
  - apply includes_append.
  - apply Forall_impl with (2 := IH). intros a Ha.
    rewrite <- append_assoc. apply includes_weaken. exact Ha.
Qed.

(** Reading a joined list item by item: an item is passed over, or it is
    the next string looked for, or the next strings are found in it. *)
Lemma join_cons sep x xs :
  exists rest, Js.join sep (x :: xs) = x ++ rest /\
               (occurs_in_order [] rest) /\
               forall hs, occurs_in_order hs (Js.join sep xs) ->
                          occurs_in_order hs rest.
Proof.
  destruct xs as [|y xs].
  - exists "". simpl. rewrite append_nil_r. split; [reflexivity|].
    split; [constructor|]. intros hs H. exact H.
  - exists (sep ++ Js.join sep (y :: xs)). split; [reflexivity|].
    split; [constructor|]. intros hs H. apply oio_weaken_l. exact H.
Qed.

Lemma oio_join_within sep hs1 hs2 x xs :
  occurs_in_order hs1 x ->
  occurs_in_order hs2 (Js.join sep xs) ->
  occurs_in_order (hs1 ++ hs2)%list (Js.join sep (x :: xs)).
Proof.
  intros H1 H2. destruct (join_cons sep x xs) as [rest [E [_ Hrest]]].
  rewrite E. apply oio_app; [exact H1 | apply Hrest, H2].
Qed.

Lemma oio_self h : occurs_in_order [h] h.
Proof.
  rewrite <- (append_nil_r h) at 2.
  change (occurs_in_order [h] ("" ++ h ++ "")). constructor. constructor.
Qed.

Lemma oio_join_take sep h hs xs :
  occurs_in_order hs (Js.join sep xs) ->
  occurs_in_order (h :: hs) (Js.join sep (h :: xs)).
Proof.
  intros H. apply (oio_join_within sep [h] hs); [apply oio_self | exact H].
Qed.

Lemma oio_join_skip sep hs x xs :
  occurs_in_order hs (Js.join sep xs) ->
  occurs_in_order hs (Js.join sep (x :: xs)).
Proof.
  intros H. apply (oio_join_within sep [] hs); [constructor | exact H].
Qed.

Lemma oio_join_blocks sep hss blocks :
  Forall2 occurs_in_order hss blocks ->
  occurs_in_order (List.concat hss) (Js.join sep blocks).
Proof.
  induction 1 as [|hs b hss blocks Hb _ IH]; simpl.
  - constructor.
  - apply oio_join_within; assumption.
Qed.

(** Walks down a template written line by line. *)
Ltac read_lines :=
  unfold Js.lines;
  repeat first
    [ apply oio_nil
    | apply oio_join_take
    | apply oio_join_skip ].

Section Blocks.
Variable toLocaleDateString : string -> string.

Lemma title_block d : occurs_in_order (outline_title d) (sec_title d).
Proof.
  unfold outline_title, sec_title. rewrite <- append_assoc.
  apply oio_weaken_r. apply oio_self.
Qed.

Lemma private_notice_block d :
  occurs_in_order (if private d then [h_private] else []) (privateNotice d).
Proof.
  unfold privateNotice. destruct (private d); [read_lines | constructor].
Qed.

Lemma description_block d :
  occurs_in_order (outline_description d) (sec_description d).
Proof.
  unfold outline_description, sec_description, Js.lines.
  apply oio_join_take. apply oio_join_skip.
  apply oio_join_take. apply oio_join_skip.
  rewrite <- (app_nil_r (if private d then _ else _)).
  apply oio_join_within; [apply private_notice_block | constructor].
Qed.

Lemma features_block d :
  occurs_in_order (outline_features d) (sec_features toLocaleDateString d).
Proof. unfold outline_features, sec_features. read_lines. Qed.

Lemma techStack_block d : occurs_in_order [h_tech] (sec_techStack d).
Proof. unfold sec_techStack. read_lines. Qed.

Lemma prerequisites_block d :
  occurs_in_order [h_prerequisites] (sec_prerequisites d).
Proof. unfold sec_prerequisites. read_lines. Qed.

Lemma installation_block d : occurs_in_order [h_installation] (sec_installation d).
Proof. unfold sec_installation. read_lines. Qed.

Lemma usage_block d : occurs_in_order [h_usage] (sec_usage d).
Proof. unfold sec_usage. read_lines. Qed.

Lemma projectStructure_block d :
  occurs_in_order [h_structure] (sec_projectStructure d).
Proof. unfold sec_projectStructure. read_lines. Qed.

Lemma contributing_block : occurs_in_order [h_contributing] sec_contributing.
Proof. unfold sec_contributing. read_lines. Qed.

Lemma license_block d : occurs_in_order (outline_license d) (sec_license d).
Proof. unfold outline_license, sec_license. read_lines. Qed.

Lemma contact_block d : occurs_in_order [h_contact] (sec_contact d).
Proof. unfold sec_contact. read_lines. Qed.

Lemma badges_block d : occurs_in_order (outline_badges d) (sec_badges d).
Proof. unfold outline_badges, sec_badges. read_lines. Qed.

Lemma outline_in_order d :
  occurs_in_order (fallback_outline d) (generateFallbackReadme toLocaleDateString d).
Proof.
  unfold fallback_outline, generateFallbackReadme, outline_blocks, sections.
  apply oio_join_blocks.
  repeat first
    [ apply Forall2_nil
    | apply Forall2_cons ];
  auto using title_block, badges_block, description_block, features_block,
    techStack_block, prerequisites_block, installation_block, usage_block,
    projectStructure_block, contributing_block, license_block, contact_block.
Qed.

(** ** The document line by line *)

Lemma lines_cons x xs :
  xs <> [] -> Js.lines (x :: xs) = x ++ Js.nl ++ Js.lines xs.
Proof. destruct xs; [congruence | reflexivity]. Qed.

Lemma lines_app xs ys :
  xs <> [] -> ys <> [] ->
  Js.lines (xs ++ ys)%list = Js.lines xs ++ Js.nl ++ Js.lines ys.
Proof.
  intros Hxs Hys. induction xs as [|x xs IH]; [congruence|].
  destruct xs as [|x' xs].
  - change ([x] ++ ys)%list with (x :: ys). apply lines_cons, Hys.
  - change ((x :: x' :: xs) ++ ys)%list with (x :: ((x' :: xs) ++ ys))%list.
    rewrite lines_cons by discriminate. rewrite IH by discriminate.
    rewrite (lines_cons x (x' :: xs)) by discriminate.
    rewrite !append_assoc. reflexivity.
Qed.

(** A template interpolated into a line of another one. *)
Lemma lines_nest a b c :
  b <> [] -> Js.lines (a ++ Js.lines b :: c)%list = Js.lines (a ++ b ++ c)%list.
Proof.
  intros Hb.
  assert (Hbc : (b ++ c)%list <> []) by (destruct b; [congruence | discriminate]).
  assert (Hbase : Js.lines (Js.lines b :: c) = Js.lines (b ++ c)%list).
  { destruct c as [|y c]; [rewrite app_nil_r; reflexivity|].
    rewrite lines_cons, lines_app by (discriminate || exact Hb). reflexivity. }
  destruct a as [|x a]; [exact Hbase|].
  rewrite !lines_app by (discriminate || exact Hbc). rewrite Hbase. reflexivity.
Qed.

Lemma lines_nest_end a b :
  b <> [] -> Js.lines (a ++ [Js.lines b])%list = Js.lines (a ++ b)%list.
Proof.
  intros Hb. rewrite lines_nest by exact Hb. rewrite app_nil_r. reflexivity.
Qed.

(** Two templates joined by an empty line. *)
Lemma lines_paragraph b rest :
  b <> [] -> rest <> [] ->
  Js.lines b ++ (Js.nl ++ Js.nl) ++ Js.lines rest = Js.lines (b ++ "" :: rest)%list.
Proof.
  intros Hb Hrest. rewrite lines_app, lines_cons by (discriminate || assumption).
  reflexivity.
Qed.

Lemma join_two sep x y rest :
  Js.join sep (x :: y :: rest) = x ++ sep ++ Js.join sep (y :: rest).
Proof. reflexivity. Qed.

Lemma description_lines d :
  sec_description d
  = Js.lines
      ([ h_description; "";
         Js.or_else (description d) "A GitHub repository that needs a description.";
         "" ] ++
       (if private d then
          [ ""; h_private; "";
            "This is a private repository. Access is restricted to authorized collaborators only.";
            ""; "" ]
        else [ "" ]))%list.
Proof.
  unfold sec_description, privateNotice. destruct (private d); [|reflexivity].
  apply (lines_nest_end [_; _; _; _]). discriminate.
Qed.

Lemma techStack_lines d :
  sec_techStack d
  = Js.lines
      ([ h_tech; "" ] ++
       match languages d with
       | [] => [ "- " ++ Js.or_else (language d) "Not specified" ]
       | _ :: _ => map (fun lang => "- " ++ lang) (languages d)
       end).
Proof.
  unfold sec_techStack. destruct (languages d) as [|l ls]; [reflexivity|].
  change (0 <? length (l :: ls))%nat with true. cbv iota.
  apply (lines_nest_end [_; _]). discriminate.
Qed.

Lemma projectStructure_lines d :
  sec_projectStructure d
  = Js.lines
      ([ h_structure; ""; "```"; name d ++ "/" ] ++
       match files d with
       | [] => [ "" ]
       | _ :: _ => map (fun file => deco_branch ++ " " ++ file) (firstn 10 (files d))
       end ++
       [ if (10 <? length (files d))%nat then
           deco_last_branch ++ " ... and " ++ Js.show_nat (length (files d) - 10)
           ++ " more files"
         else "";
         "```" ]).
Proof.
  unfold sec_projectStructure. destruct (files d) as [|f fs]; [reflexivity|].
  apply (lines_nest [_; _; _; _]). discriminate.
Qed.

Lemma features_lines d :
  sec_features toLocaleDateString d
  = Js.lines
      [ h_features;
        "";
        "- Built with " ++ Js.or_else (language d) "multiple languages";
        "- " ++ Js.show_nat (stars d) ++ " stars on GitHub";
        "- Active development with " ++ Js.show_nat (forks d) ++ " forks";
        "- " ++ Js.show_nat (openIssues d) ++ " open issues";
        "- Last updated: " ++ toLocaleDateString (updatedAt d);
        match topics d with
        | [] => ""
        | _ :: _ =>
            "- Topics: " ++
            Js.join ", " (map (fun topic => Js.backtick ++ topic ++ Js.backtick) (topics d))
        end ].
Proof.
  unfold sec_features. destruct (topics d); reflexivity.
Qed.

Lemma license_lines d :
  sec_license d
  = Js.lines
      [ h_license;
        "";
        match license d with
        | Some l =>
            if String.eqb l "" then "This project is not currently licensed."
            else "This project is licensed under the " ++ l ++ "."
        | None => "This project is not currently licensed."
        end ].
Proof.
  unfold sec_license, Js.truthy, Js.interp.
  destruct (license d) as [l|]; [|reflexivity].
  destruct (String.eqb l ""); reflexivity.
Qed.

(** The fallback document is made of the lines of [fallback_lines]. *)
Lemma fallback_by_lines d :
  generateFallbackReadme toLocaleDateString d
  = Js.lines (fallback_lines toLocaleDateString d).
Proof.
  unfold generateFallbackReadme, sections.
  rewrite description_lines, techStack_lines, projectStructure_lines,
    features_lines, license_lines.
  change (sec_title d) with (Js.lines [sec_title d]).
  unfold sec_badges, sec_prerequisites, sec_installation, sec_usage,
    sec_contributing, sec_contact.
  rewrite !join_two. change (Js.join (Js.nl ++ Js.nl) [?x]) with x.
  rewrite !lines_paragraph by discriminate.
  unfold fallback_lines, sec_title, when.
  cbn [List.concat]. rewrite <- !app_assoc. cbn [app negb].
  destruct (Js.truthy (language d)); reflexivity.
Qed.

End Blocks.

(** C9, as stated, fails: for a public repository without description
    and license the fallback document has no configuration section, so
    the thirteen sections are not all there, and the missing
    description and license are rendered as fixed sentences, not as
    empty lines. *)
Lemma fallback_lacks_configuration :
  description demo = None /\
  license demo = None /\
  Js.includes (generateFallbackReadme us_date demo) "Configuration" = false /\
  ~ occurs_in_order (thirteen_sections_public demo)
      (generateFallbackReadme us_date demo) /\
  Js.includes (generateFallbackReadme us_date demo)
    "A GitHub repository that needs a description." = true /\
  Js.includes (generateFallbackReadme us_date demo)
    "This project is not currently licensed." = true.
Proof.
  split; [reflexivity|]. split; [reflexivity|].
  assert (Hno : Js.includes (generateFallbackReadme us_date demo) "Configuration"
                = false) by (vm_compute; reflexivity).
  split; [exact Hno|]. split.
  - intros H. apply oio_includes in H. rewrite Forall_forall in H.
    specialize (H "Configuration"). rewrite Hno in H.
    assert (Hin : In "Configuration" (thirteen_sections_public demo))
      by (simpl; tauto).
    apply H in Hin. discriminate.
  - split; vm_compute; reflexivity.
Qed.

(** C9, amended: for every descriptor the fallback document is the
    lines of [fallback_lines]: twelve blocks, title, badges,
    description (with the private-repository notice when the
    repository is private), features, tech stack, prerequisites,
    installation, usage, project structure, contributing, license and
    contact, one empty line between two blocks and no configuration
    block.  Read top to bottom it shows the title, the four badges that
    are always there, and the headings in that order.  For a repository
    that is public and has no description, language, license, topic,
    language list or file, the document is the one written out below:
    the description, the language and the license are replaced by the
    fixed texts 'A GitHub repository that needs a description.',
    'Multiple', 'multiple languages', 'Not specified' and
    'This project is not currently licensed.', the conditional bullets
    of the prerequisites and of the contact are the bare bullet, and
    the other conditional lines are empty. *)
Theorem fallback_document_lines toLocaleDateString d :
  generateFallbackReadme toLocaleDateString d
  = Js.lines (fallback_lines toLocaleDateString d) /\
  occurs_in_order
    ([ "# " ++ name d;
       "![GitHub stars](https://img.shields.io/badge/stars-" ++ Js.show_nat (stars d) ++ "-yellow)";
       "![GitHub forks](https://img.shields.io/badge/forks-" ++ Js.show_nat (forks d) ++ "-blue)";
       "![GitHub language](https://img.shields.io/badge/language-" ++ Js.or_else (language d) "Multiple" ++ "-green)";
       "![GitHub issues](https://img.shields.io/badge/issues-" ++ Js.show_nat (openIssues d) ++ "-orange)";
       h_description;
       Js.or_else (description d) "A GitHub repository that needs a description." ] ++
     (if private d then [ h_private ] else []) ++
     [ h_features;
       "- Built with " ++ Js.or_else (language d) "multiple languages";
       h_tech;
       h_prerequisites;
       h_installation;
       h_usage;
       h_structure;
       h_contributing;
       h_license;
       if Js.truthy (license d) then
         "This project is licensed under the " ++ Js.interp (license d) ++ "."
       else "This project is not currently licensed.";
       h_contact ])
    (generateFallbackReadme toLocaleDateString d) /\
  forall name stars forks url createdAt updatedAt openIssues watchers
         defaultBranch lastCommit,
    generateFallbackReadme toLocaleDateString
      (mkDescriptor name None false stars forks None [] None [] [] url
         createdAt updatedAt openIssues watchers defaultBranch lastCommit)
    = Js.lines [
        "# " ++ name ++ " ";
        "";
        "";
        "![GitHub stars](https://img.shields.io/badge/stars-" ++ Js.show_nat stars ++ "-yellow)";
        "![GitHub forks](https://img.shields.io/badge/forks-" ++ Js.show_nat forks ++ "-blue)";
        "![GitHub language](https://img.shields.io/badge/language-Multiple-green)";
        "![GitHub issues](https://img.shields.io/badge/issues-" ++ Js.show_nat openIssues ++ "-orange)";
        "";
        h_description;
        "";
        "A GitHub repository that needs a description.";
        "";
        "";
        "";
        h_features;
        "";
        "- Built with multiple languages";
        "- " ++ Js.show_nat stars ++ " stars on GitHub";
        "- Active development with " ++ Js.show_nat forks ++ " forks";
        "- " ++ Js.show_nat openIssues ++ " open issues";
        "- Last updated: " ++ toLocaleDateString updatedAt;
        "";
        "";
        h_tech;
        "";
        "- Not specified";
        "";
        h_prerequisites;
        "";
        "Before you begin, ensure you have met the following requirements:";
        "- Git installed on your machine";
        "- ";
        "- ";
        "- ";
        "- ";
        "";
        h_installation;
        "";
        "1. Clone the repository:";
        "```bash";
        "git clone " ++ url;
        "cd " ++ name;
        "```";
        "";
        "2. Install dependencies:";
        "```bash";
        "";
        "";
        "";
        "# Install dependencies based on your project type";
        "```";
        "";
        h_usage;
        "";
        "```bash";
        "";
        "";
        "";
        "# Run the project based on your setup";
        "```";
        "";
        h_structure;
        "";
        "```";
        name ++ "/";
        "";
        "";
        "```";
        "";
        h_contributing;
        "";
        "Contributions are welcome! Please follow these steps:";
        "";
        "1. Fork the repository";
        "2. Create your feature branch (`git checkout -b feature/AmazingFeature`)";
        "3. Commit your changes (`git commit -m 'Add some AmazingFeature'`)";
        "4. Push to the branch (`git push origin feature/AmazingFeature`)";
        "5. Open a Pull Request";
        "";
        h_license;
        "";
        "This project is not currently licensed.";
        "";
        h_contact;
        "";
        "- Repository: [" ++ name ++ "](" ++ url ++ ")";
        "- ";
        "";
        "---";
        "";
        "<div align=" ++ Js.dquote ++ "center" ++ Js.dquote ++ ">";
        "Generated with " ++ deco_heart ++ " by GitHub README Generator";
        "</div>" ].
Proof.
  split; [apply fallback_by_lines|]. split.
  - pose proof (outline_in_order toLocaleDateString d) as H.
    unfold fallback_outline, outline_blocks, outline_title, outline_badges,
      outline_description, outline_features, outline_license in H.
    cbn [List.concat] in H. rewrite <- !app_assoc in H. cbn [app] in H.
    exact H.
  - intros. rewrite fallback_by_lines. reflexivity.
Qed.

(** C8, as stated, fails: when the backend answers without a candidate,
    reading the text of the answer returns the empty string;
    [generateReadme] returns it as the document, not the fallback, and
    the handler answers 200 with an empty [readme]. *)
Lemma malformed_answer_not_replaced :
  generateReadme us_date backend_blank demo = "" /\
  generateReadme us_date backend_blank demo <> generateFallbackReadme us_date demo /\
  Api.generate_readme us_date Api.parse_demo Api.github_demo backend_blank
    Api.logged_in (Some "https://github.com/octocat/demo")
  = Api.success_response "" demo /\
  Api.member "readme"
    (Api.body (Api.generate_readme us_date Api.parse_demo Api.github_demo
                 backend_blank Api.logged_in
                 (Some "https://github.com/octocat/demo")))
  = Some (Sanitizer.JString "").
Proof.
  split; [reflexivity|]. split; [vm_compute; discriminate|].
  split; vm_compute; reflexivity.
Qed.

(** The [readme] member of a success answer: the document, or the
    marker when the document holds the pattern of a token. *)
Lemma success_response_readme readme d :
  Api.code (Api.success_response readme d) = 200 /\
  Api.member "success" (Api.body (Api.success_response readme d))
  = Some (Sanitizer.JBool true) /\
  Api.member "readme" (Api.body (Api.success_response readme d))
  = Some (Sanitizer.JString
            (if Server.has_token_pattern readme then Sanitizer.REDACTED
             else readme)).
Proof.
  split; [reflexivity|]. split; [reflexivity|].
  assert (Hkey : Sanitizer.looks_secret "readme" readme
                 = Server.has_token_pattern readme).
  { unfold Sanitizer.looks_secret, Server.has_token_pattern.
    change (Js.includes (Js.toLowerCase "readme") "token") with false.
    change (Js.includes (Js.toLowerCase "readme") "secret") with false.
    rewrite !orb_false_r. reflexivity. }
  rewrite <- Hkey.
  transitivity (Some (Sanitizer.replacer "readme" (Sanitizer.JString readme)));
    [reflexivity|].
  unfold Sanitizer.replacer.
  destruct (Sanitizer.looks_secret "readme" readme); reflexivity.
Qed.

(** C8, amended: the backend is called once, with the prompt of the
    descriptor.  When the call throws, be it that the request is
    rejected or that reading the text of the answer throws,
    [generateReadme] returns the fallback document of the descriptor;
    when the text can be read it is returned as it is, even empty.  The
    result is the text alone: nothing tells which of the two it is.  In
    each case the handler answers 200 with [success: true] and the
    document as [readme] (the marker in its place when it holds the
    pattern of a token): the failure of the backend is not reported as
    a failure. *)
Theorem backend_throw_falls_back
    toLocaleDateString parseGitHubUrl github backend session repoUrl owner repo d :
  Js.truthy repoUrl = true ->
  parseGitHubUrl (Js.interp repoUrl) = Some (owner, repo) ->
  fetchRepoData (github owner repo (Api.bearer_of session)) = inl d ->
  let readme := generateReadme toLocaleDateString backend d in
  let r := Api.generate_readme toLocaleDateString parseGitHubUrl github backend
             session repoUrl in
  (forall error, backend (prompt d) = GenerateRejected error ->
     readme = generateFallbackReadme toLocaleDateString d) /\
  (forall error, backend (prompt d) = TextThrew error ->
     readme = generateFallbackReadme toLocaleDateString d) /\
  (forall text, backend (prompt d) = TextReturned text -> readme = text) /\
  Api.code r = 200 /\
  Api.member "success" (Api.body r) = Some (Sanitizer.JBool true) /\
  Api.member "readme" (Api.body r)
  = Some (Sanitizer.JString
            (if Server.has_token_pattern readme then Sanitizer.REDACTED
             else readme)).
Proof.
  intros Hurl Hparse Hfetch readme r.
  assert (Hr : r = Api.success_response readme d).
  { subst r readme. unfold Api.generate_readme. rewrite Hurl, Hparse.
    cbn [negb]. rewrite Hfetch. reflexivity. }
  split; [intros e E; subst readme; unfold generateReadme; rewrite E; reflexivity|].
  split; [intros e E; subst readme; unfold generateReadme; rewrite E; reflexivity|].
  split; [intros t E; subst readme; unfold generateReadme; rewrite E; reflexivity|].
  rewrite Hr. apply success_response_readme.
Qed.

Lemma backend_throw_falls_back_witness :
  generateReadme us_date backend_down demo = generateFallbackReadme us_date demo /\
  Api.code (Api.generate_readme us_date Api.parse_demo Api.github_demo backend_down
              Api.logged_in (Some "https://github.com/octocat/demo")) = 200.
Proof.
  pose proof (backend_throw_falls_back us_date Api.parse_demo Api.github_demo
                backend_down Api.logged_in (Some "https://github.com/octocat/demo")
                "octocat" "demo" demo eq_refl eq_refl eq_refl)
    as [Hrejected [_ [_ [Hcode _]]]].
  split; [exact (Hrejected "429 Too Many Requests" eq_refl) | exact Hcode].
Defined.

End GeneratorFacts.

(* ===================================================================== *)
(** * The handshake as a whole *)
(* ===================================================================== *)

Module AuthFlow.
Import Handler Auth AuthFacts.

Lemma strict_neq_string q s :
  strict_neq q (Some s) = true <-> q <> QString s.
Proof.
  destruct q as [|a|t]; simpl.
  - split; [discriminate | reflexivity].
  - rewrite negb_true_iff, String.eqb_neq. split.
    + intros Hne Heq. inversion Heq. contradiction.
    + intros Hne Heq. apply Hne. rewrite Heq. reflexivity.
  - split; [discriminate | reflexivity].
Qed.

Lemma start_sets_oauthState cfg nonce w :
  oauthState (session (snd (start cfg nonce w))) = Some nonce.
Proof.
  run_handler. destruct (Js.truthy (GITHUB_REDIRECT_URI cfg)); reflexivity.
Qed.

Lemma start_world cfg nonce w :
  snd (start cfg nonce w)
  = mkWorld (mkSession (Some nonce) (accessToken (session w)) (user (session w)))
            (calls w).
Proof.
  run_handler. destruct (Js.truthy (GITHUB_REDIRECT_URI cfg)); reflexivity.
Qed.

(** What [/auth/status] answers for a session that holds a token and a
    user: the members of the user pass the response sanitizer, which
    replaces one that contains [ghp_], [gho_] or [ghs_] by the
    marker. *)
Lemma auth_status_logged_in oauth tok u :
  tok <> "" ->
  Server.auth_status (mkSession oauth (Some tok) (Some u))
  = Api.mkJsonResponse 200
      (Sanitizer.JObject [
         ("authenticated", Sanitizer.JBool true);
         ("user", Sanitizer.JObject [
            ("login", Server.shown (login u));
            ("name", Server.shown (name u));
            ("avatar_url", Server.shown (avatar_url u)) ]) ]).
Proof.
  intros Hne. apply String.eqb_neq in Hne.
  unfold Server.auth_status, status, Js.truthy. cbn [accessToken user fst snd].
  rewrite Hne. unfold Api.res_json, Sanitizer.sanitize, Server.user_json.
  cbn [Sanitizer.clean negb]. f_equal. f_equal. f_equal. f_equal. f_equal.
  assert (Hshown : forall key v,
            Js.includes (Js.toLowerCase key) "token" = false ->
            Js.includes (Js.toLowerCase key) "secret" = false ->
            Sanitizer.clean key (Api.json_of v) = Server.shown v).
  { intros key [x|] Ht Hs; [|reflexivity]. simpl.
    unfold Sanitizer.looks_secret, Server.has_token_pattern.
    rewrite Ht, Hs, !orb_false_r.
    destruct (Js.includes x "ghp_" || Js.includes x "gho_" || Js.includes x "ghs_");
      reflexivity. }
  rewrite !Hshown by reflexivity. reflexivity.
Qed.

(** After [/auth/github] has run with a nonce, whatever the session held
    before and whether or not the redirect URI is configured, the
    callback answers with the invalid-state redirect exactly when its
    state is not that nonce as a string: an earlier nonce, a missing or
    a structured state are all refused. *)
Theorem only_issued_nonce_accepted cfg cfg' up nonce code state w :
  fst (callback cfg' up code state (snd (start cfg nonce w))) = inl invalid_state
  <-> state <> QString nonce.
Proof.
  rewrite callback_invalid_state_iff, start_sets_oauthState.
  apply strict_neq_string.
Qed.

(** The complete handshake: on a configured server, [/auth/github]
    followed by a callback carrying the issued nonce, a code GitHub
    exchanges for a non-empty token and an identity request that
    succeeds, ends with the success redirect; the session then holds
    that token and that user, [/auth/status] answers 200 with
    [authenticated: true] and the three members of that user, each as
    GitHub sent it unless it contains [ghp_], [gho_] or [ghs_], in
    which case the response sanitizer puts the marker in its place, and
    exactly two upstream requests were sent, the identity request
    bearing the new token. *)
Theorem handshake_authenticates cfg up nonce code tok u w :
  Js.truthy (GITHUB_REDIRECT_URI cfg) = true ->
  token_endpoint up code = Resolved (Some tok) ->
  tok <> "" ->
  user_endpoint up tok = Resolved u ->
  let r := callback cfg up code (QString nonce) (snd (start cfg nonce w)) in
  fst r = inl auth_success /\
  session (snd r) = mkSession (Some nonce) (Some tok) (Some u) /\
  Server.auth_status (session (snd r))
  = Api.mkJsonResponse 200
      (Sanitizer.JObject [
         ("authenticated", Sanitizer.JBool true);
         ("user", Sanitizer.JObject [
            ("login", Server.shown (login u));
            ("name", Server.shown (name u));
            ("avatar_url", Server.shown (avatar_url u)) ]) ]) /\
  calls (snd r)
  = (calls w ++ [PostAccessToken code (Js.interp (GITHUB_REDIRECT_URI cfg));
                 GetUser tok])%list.
Proof.
  intros Hcfg Htok Hne Huser. rewrite start_world.
  apply String.eqb_neq in Hne.
  run_handler. rewrite String.eqb_refl, Hcfg. simpl.
  rewrite Htok. simpl. rewrite Hne. simpl. rewrite Huser. simpl.
  rewrite <- app_assoc. repeat split.
  apply auth_status_logged_in. apply String.eqb_neq. exact Hne.
Qed.

Lemma handshake_authenticates_witness :
  let r := callback cfg_ok github_accepts (QString "code") (QString "5f2a")
             (snd (start cfg_ok "5f2a" fresh)) in
  fst r = inl auth_success /\
  session (snd r) = mkSession (Some "5f2a") (Some "gho_abc") (Some octocat) /\
  Server.auth_status (session (snd r))
  = Api.mkJsonResponse 200
      (Sanitizer.JObject [
         ("authenticated", Sanitizer.JBool true);
         ("user", Sanitizer.JObject [
            ("login", Server.shown (login octocat));
            ("name", Server.shown (name octocat));
            ("avatar_url", Server.shown (avatar_url octocat)) ]) ]) /\
  calls (snd r)
  = ([] ++ [PostAccessToken (QString "code")
              (Js.interp (GITHUB_REDIRECT_URI cfg_ok));
            GetUser "gho_abc"])%list.
Proof.
  apply (handshake_authenticates cfg_ok github_accepts "5f2a" (QString "code")
           "gho_abc" octocat fresh).
  - reflexivity.
  - reflexivity.
  - discriminate.
  - reflexivity.
Defined.

(** A callback without a [state] parameter on a session that never went
    through [/auth/github] is not refused: both sides of the comparison
    are [undefined], and on a configured server the code is sent to the
    token endpoint. *)
Theorem stateless_callback_not_refused cfg up code w :
  oauthState (session w) = None ->
  Js.truthy (GITHUB_REDIRECT_URI cfg) = true ->
  let r := callback cfg up code QUndefined w in
  fst r <> inl invalid_state /\
  exists rest,
    calls (snd r)
    = (calls w ++ PostAccessToken code (Js.interp (GITHUB_REDIRECT_URI cfg))
                  :: rest)%list.
Proof.
  intros Hnone Hcfg. split.
  - rewrite callback_invalid_state_iff, Hnone. discriminate.
  - run_handler. rewrite Hnone, Hcfg. simpl.
    destruct (token_endpoint up code) as [tok|m]; simpl;
      [|exists []; reflexivity].
    destruct (Js.truthy tok); simpl; [|exists []; reflexivity].
    destruct (user_endpoint up (Js.interp tok)); simpl;
      exists [GetUser (Js.interp tok)]; rewrite <- app_assoc; reflexivity.
Qed.

Lemma stateless_callback_not_refused_witness :
  let r := callback cfg_ok github_accepts (QString "code") QUndefined fresh in
  fst r <> inl invalid_state /\
  exists rest,
    calls (snd r)
    = (calls fresh ++ PostAccessToken (QString "code")
                        (Js.interp (GITHUB_REDIRECT_URI cfg_ok)) :: rest)%list.
Proof.
  apply (stateless_callback_not_refused cfg_ok github_accepts (QString "code") fresh);
    reflexivity.
Defined.

(** The upstream traffic of one callback: nothing, or the token
    exchange alone, or the token exchange followed by one identity
    request whose bearer is the token the exchange returned.  The code
    is exchanged at most once and no request precedes the exchange. *)
Theorem callback_upstream_calls cfg up code state w :
  let r := callback cfg up code state w in
  let post := PostAccessToken code (Js.interp (GITHUB_REDIRECT_URI cfg)) in
  calls (snd r) = calls w \/
  calls (snd r) = (calls w ++ [post])%list \/
  exists tok,
    token_endpoint up code = Resolved (Some tok) /\
    calls (snd r) = (calls w ++ [post; GetUser tok])%list.
Proof.
  run_handler.
  destruct (strict_neq state (oauthState (session w))); [left; reflexivity|].
  destruct (Js.truthy (GITHUB_REDIRECT_URI cfg)); [|left; reflexivity]. simpl.
  destruct (token_endpoint up code) as [[tok|]|m]; simpl;
    try (right; left; reflexivity).
  destruct (String.eqb tok ""); simpl; [right; left; reflexivity|].
  right; right. exists tok. split; [reflexivity|].
  destruct (user_endpoint up tok); simpl; rewrite <- app_assoc; reflexivity.
Qed.

(** With a matching state but no redirect URI configured, the callback
    answers 500 with the configuration-error text and leaves the
    session and the upstream log untouched: the code is not
    exchanged. *)
Theorem callback_unconfigured cfg up code state w :
  strict_neq state (oauthState (session w)) = false ->
  Js.truthy (GITHUB_REDIRECT_URI cfg) = false ->
  callback cfg up code state w = (inl (SendStatus 500 config_error), w).
Proof.
  intros Hmatch Hcfg. run_handler. rewrite Hmatch, Hcfg. reflexivity.
Qed.

Lemma callback_unconfigured_witness :
  callback cfg_no_redirect github_accepts (QString "code") (QString "5f2a") started
  = (inl (SendStatus 500 config_error), started).
Proof.
  apply callback_unconfigured; reflexivity.
Defined.

(** The success redirect is only sent after both writes: whenever the
    callback answers with it, the token endpoint returned a non-empty
    token, the identity request succeeded, and the session holds that
    token and that user, so [/auth/status] answers 200 with
    [authenticated: true] and the three members of that user, each as
    GitHub sent it unless it contains [ghp_], [gho_] or [ghs_], in
    which case the response sanitizer puts the marker in its place. *)
Theorem success_means_token_and_user cfg up code state w :
  fst (callback cfg up code state w) = inl auth_success ->
  exists tok u,
    token_endpoint up code = Resolved (Some tok) /\
    user_endpoint up tok = Resolved u /\
    session (snd (callback cfg up code state w))
    = mkSession (oauthState (session w)) (Some tok) (Some u) /\
    Server.auth_status (session (snd (callback cfg up code state w)))
    = Api.mkJsonResponse 200
        (Sanitizer.JObject [
           ("authenticated", Sanitizer.JBool true);
           ("user", Sanitizer.JObject [
              ("login", Server.shown (login u));
              ("name", Server.shown (name u));
              ("avatar_url", Server.shown (avatar_url u)) ]) ]).
Proof.
  run_handler.
  destruct (strict_neq state (oauthState (session w))); [discriminate|].
  destruct (Js.truthy (GITHUB_REDIRECT_URI cfg)); [|discriminate]. simpl.
  destruct (token_endpoint up code) as [[tok|]|m]; simpl; try discriminate.
  destruct (String.eqb tok "") eqn:Etok; simpl; [discriminate|].
  destruct (user_endpoint up tok) as [u|m] eqn:Eu; simpl; [|discriminate].
  intros _. exists tok, u.
  split; [reflexivity|]. split; [exact Eu|]. split; [reflexivity|].
  apply auth_status_logged_in. apply String.eqb_neq. exact Etok.
Qed.

Lemma success_means_token_and_user_witness :
  exists tok u,
    token_endpoint github_accepts (QString "code") = Resolved (Some tok) /\
    user_endpoint github_accepts tok = Resolved u /\
    session (snd (callback cfg_ok github_accepts (QString "code") (QString "5f2a") started))
    = mkSession (oauthState (session started)) (Some tok) (Some u) /\
    Server.auth_status
      (session (snd (callback cfg_ok github_accepts (QString "code")
                       (QString "5f2a") started)))
    = Api.mkJsonResponse 200
        (Sanitizer.JObject [
           ("authenticated", Sanitizer.JBool true);
           ("user", Sanitizer.JObject [
              ("login", Server.shown (login u));
              ("name", Server.shown (name u));
              ("avatar_url", Server.shown (avatar_url u)) ]) ]).
Proof.
  apply (success_means_token_and_user cfg_ok github_accepts (QString "code")
           (QString "5f2a") started).
  reflexivity.
Defined.

(** A member of the user that holds the pattern of a token does not
    reach the page. *)
Example status_redacts_member :
  Server.auth_status
    (mkSession None (Some "gho_abc")
       (Some (mkUser (Some "octocat") (Some "laughs_a_lot") None)))
  = Api.mkJsonResponse 200
      (Sanitizer.JObject [
         ("authenticated", Sanitizer.JBool true);
         ("user", Sanitizer.JObject [
            ("login", Sanitizer.JString "octocat");
            ("name", Sanitizer.JString "[REDACTED]");
            ("avatar_url", Sanitizer.JNull) ]) ]).
Proof. vm_compute. reflexivity. Qed.

End AuthFlow.

(* ===================================================================== *)
(** * What the two sanitizers let through *)
(* ===================================================================== *)

Module SanitizerOutput.
Import Sanitizer SafeLog SanitizerFacts.

(** Induction on a JSON value with the members of arrays and objects
    as induction hypotheses. *)
Lemma Json_nested_ind (P : Json -> Prop) :
  P JNull ->
  (forall b, P (JBool b)) ->
  (forall n, P (JNumber n)) ->
  (forall s, P (JString s)) ->
  (forall items, Forall P items -> P (JArray items)) ->
  (forall props, Forall (fun kv => P (snd kv)) props -> P (JObject props)) ->
  forall v, P v.
Proof.
  intros Hnull Hbool Hnum Hstr Harr Hobj.
  fix IH 1. intros [| b | n | s | items | props].
  - exact Hnull.
  - apply Hbool.
  - apply Hnum.
  - apply Hstr.
  - apply Harr. induction items as [|x items IHitems]; constructor.
    + apply IH.
    + exact IHitems.
  - apply Hobj. induction props as [|[k v] props IHprops]; constructor.
    + apply IH.
    + exact IHprops.
Qed.

Lemma clean_is_string key v s :
  clean key v = JString s ->
  exists s0, v = JString s0 /\
             s = if looks_secret key s0 then REDACTED else s0.
Proof.
  destruct v as [| b | n | s0 | items | props]; simpl; try discriminate.
  intros H. exists s0. split; [reflexivity|].
  destruct (looks_secret key s0); inversion H; reflexivity.
Qed.

Lemma pair_at_sanitize_inv data path k v' :
  pair_at "" (sanitize data) path = Some (k, v') ->
  exists v, pair_at "" data path = Some (k, v) /\ v' = clean k v.
Proof.
  unfold sanitize. rewrite pair_at_clean.
  destruct (pair_at "" data path) as [[k0 v]|]; simpl; [|discriminate].
  unfold clean_pair. simpl. intros H. inversion H; subst.
  exists v. split; reflexivity.
Qed.

(** Nothing that looks like a GitHub token is left in a string value of
    a sanitized payload: at any depth, a string value contains none of
    [ghp_], [gho_], [ghs_], and under a key whose lower case contains
    "token" or "secret" it is the marker. *)
Theorem sanitized_strings_are_clean data path k s :
  pair_at "" (sanitize data) path = Some (k, JString s) ->
  value_has_token_prefix (JString s) = false /\
  (key_is_sensitive k = true -> s = REDACTED).
Proof.
  intros H. apply pair_at_sanitize_inv in H as [v [_ Hv]].
  symmetry in Hv. apply clean_is_string in Hv as [s0 [_ Hs]].
  rewrite looks_secret_iff in Hs.
  destruct (key_is_sensitive k) eqn:Ek.
  - rewrite orb_true_l in Hs. subst s.
    split; [reflexivity | intros _; reflexivity].
  - rewrite orb_false_l in Hs.
    destruct (value_has_token_prefix (JString s0)) eqn:Ev; subst s.
    + split; [reflexivity | discriminate].
    + split; [exact Ev | discriminate].
Qed.

Lemma sanitized_strings_are_clean_witness :
  value_has_token_prefix (JString REDACTED) = false /\
  (key_is_sensitive "1" = true -> REDACTED = REDACTED).
Proof.
  apply (sanitized_strings_are_clean leaky [2; 1] "1" REDACTED).
  reflexivity.
Defined.

(** The sanitizer does not redact more than its test says: a null, a
    boolean, a number, and a string that is under no sensitive key and
    holds none of the three prefixes, are found unchanged at the same
    place of the sanitized payload. *)
Theorem plain_values_pass_unchanged data path k v :
  pair_at "" data path = Some (k, v) ->
  match v with
  | JString s => looks_secret k s = false
  | JArray _ => False
  | JObject _ => False
  | _ => True
  end ->
  pair_at "" (sanitize data) path = Some (k, v).
Proof.
  intros Hat Hplain. unfold sanitize. rewrite pair_at_clean, Hat.
  unfold clean_pair. simpl.
  destruct v as [| b | n | s | items | props]; simpl; try reflexivity;
    try contradiction.
  rewrite Hplain. reflexivity.
Qed.

Lemma plain_values_pass_unchanged_witness :
  pair_at "" (sanitize leaky) [2; 0] = Some ("0", JString "abc").
Proof.
  apply (plain_values_pass_unchanged leaky [2; 0] "0" (JString "abc"));
    reflexivity.
Defined.

(** The sanitizer keeps the shape of the payload: a place holds a
    key/value pair in the sanitized payload exactly when it holds one
    under the same key in the original.  Keys are never rewritten,
    whatever they contain, and no member is added or dropped. *)
Theorem sanitize_keeps_keys data path k :
  (exists v', pair_at "" (sanitize data) path = Some (k, v'))
  <-> (exists v, pair_at "" data path = Some (k, v)).
Proof.
  split.
  - intros [v' H]. apply pair_at_sanitize_inv in H as [v [Hv _]].
    exists v. exact Hv.
  - intros [v H]. exists (clean k v). unfold sanitize.
    rewrite pair_at_clean, H. reflexivity.
Qed.

Lemma clean_marker key : clean key (JString REDACTED) = JString REDACTED.
Proof.
  simpl. destruct (looks_secret key REDACTED); reflexivity.
Qed.

Lemma clean_idempotent v : forall key, clean key (clean key v) = clean key v.
Proof.
  induction v as [| b | n | s | items IH | props IH] using Json_nested_ind;
    intros key; try reflexivity.
  - simpl. destruct (looks_secret key s) eqn:E.
    + apply clean_marker.
    + simpl. rewrite E. reflexivity.
  - simpl. f_equal. generalize 0 as i.
    induction IH as [|x items Hx _ IHitems]; intros i; simpl.
    + reflexivity.
    + rewrite Hx, IHitems. reflexivity.
  - simpl. f_equal.
    induction IH as [|[k v] props Hv _ IHprops]; simpl.
    + reflexivity.
    + simpl in Hv. rewrite Hv, IHprops. reflexivity.
Qed.

(** Sanitizing twice is sanitizing once: the marker itself is never
    turned into something else and an already clean payload is sent as
    it is. *)
Theorem sanitize_idempotent data :
  sanitize (sanitize data) = sanitize data.
Proof.
  unfold sanitize. apply clean_idempotent.
Qed.

(** ** [safeLog] *)

Lemma members_of_safe_array i items :
  indexed i
    ((fix elems (i : nat) (l : list Json) : list Json :=
        match l with
        | [] => []
        | x :: l' => safe_clean (index_key i) x :: elems (S i) l'
        end) i items)
  = map safe_pair (indexed i items).
Proof.
  revert i. induction items as [|x items IH]; intros i; simpl.
  - reflexivity.
  - rewrite IH. reflexivity.
Qed.

Lemma members_of_safe_object props :
  (fix members (l : list (string * Json)) : list (string * Json) :=
     match l with
     | [] => []
     | (k, v) :: l' => (k, safe_clean k v) :: members l'
     end) props
  = map safe_pair props.
Proof.
  induction props as [|[k v] props IH]; simpl.
  - reflexivity.
  - rewrite IH. reflexivity.
Qed.

(** The members of a logged value are the logged members of the
    original, unless the value was replaced as a whole. *)
Lemma members_of_safe_clean key v :
  members_of (safe_clean key v) = [] \/
  members_of (safe_clean key v) = map safe_pair (members_of v).
Proof.
  destruct (Js.includes (Js.toLowerCase key) "token" ||
            Js.includes (Js.toLowerCase key) "secret") eqn:E.
  - left. destruct v; simpl; rewrite E; reflexivity.
  - destruct v as [| b | n | s | items | props]; simpl; rewrite E;
      unfold safe_replacer; try rewrite E; simpl; auto.
    + destruct (Js.includes s "ghp_"); auto.
    + right. apply members_of_safe_array.
    + right. apply members_of_safe_object.
Qed.

Lemma safe_clean_sensitive key v :
  key_is_sensitive key = true -> safe_clean key v = JString REDACTED.
Proof.
  unfold key_is_sensitive. intros H.
  destruct v; simpl; rewrite H; reflexivity.
Qed.

Lemma safe_clean_string key v s :
  safe_clean key v = JString s -> Js.includes s "ghp_" = false.
Proof.
  destruct (Js.includes (Js.toLowerCase key) "token" ||
            Js.includes (Js.toLowerCase key) "secret") eqn:E.
  - destruct v; simpl; rewrite E; intros H; inversion H; reflexivity.
  - destruct v as [| b | n | s0 | items | props]; simpl; rewrite E;
      unfold safe_replacer; try rewrite E; simpl; try discriminate.
    destruct (Js.includes s0 "ghp_") eqn:Es; intros H; inversion H; subst.
    + reflexivity.
    + exact Es.
Qed.

Lemma pair_at_safe_clean path : forall key v k v',
  pair_at key (safe_clean key v) path = Some (k, v') ->
  exists v0, v' = safe_clean k v0.
Proof.
  induction path as [|i path IH]; intros key v k v'; simpl.
  - intros H. inversion H; subst. exists v. reflexivity.
  - destruct (members_of_safe_clean key v) as [E|E]; rewrite E.
    + destruct i; discriminate.
    + rewrite nth_error_map.
      destruct (nth_error (members_of v) i) as [[k1 c1]|]; simpl;
        [|discriminate].
      apply IH.
Qed.

(** In the copy [safeLog] prints, the key alone protects a value: at
    any depth, whatever sits under a key whose lower case contains
    "token" or "secret" (a string, a number, an array, an object) is
    the marker, and no string value contains [ghp_]. *)
Theorem safeLog_hides_sensitive_keys message data logged path k v :
  safeLog message (Some data) = (message, Some logged) ->
  pair_at "" logged path = Some (k, v) ->
  (key_is_sensitive k = true -> v = JString REDACTED) /\
  (forall s, v = JString s -> Js.includes s "ghp_" = false).
Proof.
  unfold safeLog. intros Hlog Hat.
  destruct (is_object (Some data)); inversion Hlog; subst.
  apply pair_at_safe_clean in Hat as [v0 Hv0]. split.
  - intros Hk. rewrite Hv0. apply safe_clean_sensitive, Hk.
  - intros s Hs. rewrite Hs in Hv0. symmetry in Hv0.
    apply safe_clean_string in Hv0. exact Hv0.
Qed.

Lemma safeLog_hides_sensitive_keys_witness :
  (key_is_sensitive "tokenCount" = true -> JString REDACTED = JString REDACTED) /\
  (forall s, JString REDACTED = JString s -> Js.includes s "ghp_" = false).
Proof.
  apply (safeLog_hides_sensitive_keys "payload" leaky (safe_clean "" leaky)
           [3] "tokenCount" (JString REDACTED)); reflexivity.
Defined.

(** A key spelled with the Kelvin sign U+212A in place of [k] is lowered
    to [token], so its text is redacted. *)
Example kelvin_sign_key_is_sensitive :
  sanitize
    (JObject [ (String "t" (String "o" (String "226" (String "132"
                 (String "170" "en")))), JString "abc") ])
  = JObject [ (String "t" (String "o" (String "226" (String "132"
                 (String "170" "en")))), JString REDACTED) ].
Proof. vm_compute. reflexivity. Qed.

End SanitizerOutput.

(* ===================================================================== *)
(** * Properties of the URL parser *)
(* ===================================================================== *)

Module UrlFacts.
Import Url.
Import GeneratorFacts.

Lemma prefix_drop p : forall s,
  String.prefix p s = true -> s = p ++ drop (String.length p) s.
Proof.
  induction p as [|a p IH]; intros s H.
  - destruct s; reflexivity.
  - destruct s as [|b s]; simpl in H; [discriminate|].
    revert H. destruct (ascii_dec a b) as [->|]; [|discriminate].
    intros H. simpl. rewrite <- (IH s H). reflexivity.
Qed.

Lemma prefix_cons a p b s :
  String.prefix (String a p) (String b s)
  = if ascii_dec a b then String.prefix p s else false.
Proof. reflexivity. Qed.

Lemma includes_false_inv s pat :
  Js.includes s pat = false ->
  String.prefix pat s = false /\
  match s with
  | EmptyString => True
  | String _ s' => Js.includes s' pat = false
  end.
Proof.
  destruct s; simpl; intros H; apply orb_false_iff in H; tauto.
Qed.

Lemma match_at_needs_prefix s :
  String.prefix "github.com/" s = false -> match_at s = None.
Proof.
  intros H. unfold match_at. rewrite H. reflexivity.
Qed.

Lemma regex_match_absent s :
  Js.includes s "github.com/" = false -> regex_match s = None.
Proof.
  induction s as [|c s IH]; intros H;
    apply includes_false_inv in H as [Hp Ht].
  - reflexivity.
  - cbn [regex_match]. rewrite (match_at_needs_prefix _ Hp). apply IH, Ht.
Qed.

(** A text that does not contain [github.com/] is not a repository
    URL. *)
Theorem parse_needs_host url :
  Js.includes url "github.com/" = false -> parseGitHubUrl url = None.
Proof.
  intros H. unfold parseGitHubUrl. rewrite (regex_match_absent _ H).
  reflexivity.
Qed.

Lemma parse_needs_host_witness : parseGitHubUrl "not-a-url" = None.
Proof.
  apply parse_needs_host. reflexivity.
Defined.

(** ** Segments *)

Lemma span_segment_spec s : forall seg rest,
  span_segment s = (seg, rest) ->
  s = seg ++ rest /\
  slash_free seg = true /\
  (rest = "" \/ exists rest', rest = String "/" rest').
Proof.
  induction s as [|c s IH]; intros seg rest; simpl.
  - intros H. inversion H; subst. auto.
  - destruct (is_slash c) eqn:Ec.
    + intros H. inversion H; subst. split; [reflexivity|]. split; [reflexivity|].
      right. exists s. unfold is_slash in Ec. apply Ascii.eqb_eq in Ec.
      rewrite Ec. reflexivity.
    + destruct (span_segment s) as [seg' rest'] eqn:E.
      intros H. inversion H; subst.
      destruct (IH seg' rest eq_refl) as [Hs [Hf Hr]].
      split; [simpl; rewrite <- Hs; reflexivity|].
      split; [simpl; rewrite Ec, Hf; reflexivity | exact Hr].
Qed.

Lemma span_segment_app a b :
  slash_free a = true ->
  (b = "" \/ exists b', b = String "/" b') ->
  span_segment (a ++ b) = (a, b).
Proof.
  intros Ha Hb. induction a as [|c a IH]; simpl in *.
  - destruct Hb as [->|[b' ->]]; reflexivity.
  - apply andb_true_iff in Ha as [Hc Ha]. apply negb_true_iff in Hc.
    rewrite Hc, (IH Ha). reflexivity.
Qed.

Lemma slash_free_drop n : forall s,
  slash_free s = true -> slash_free (drop n s) = true.
Proof.
  induction n as [|n IH]; intros s H; destruct s as [|c s]; simpl; auto.
  simpl in H. apply andb_true_iff in H as [_ H]. apply IH, H.
Qed.

Lemma slash_free_remove_first pat s :
  slash_free s = true -> slash_free (remove_first pat s) = true.
Proof.
  induction s as [|c s IH]; intros H; cbn [remove_first].
  - destruct (String.prefix pat ""); [apply slash_free_drop|]; reflexivity.
  - destruct (String.prefix pat (String c s)).
    + apply slash_free_drop, H.
    + simpl in *. apply andb_true_iff in H as [Hc H].
      rewrite Hc, (IH H). reflexivity.
Qed.

Lemma match_at_sound s owner repo :
  match_at s = Some (owner, repo) ->
  owner <> "" /\ repo <> "" /\
  slash_free owner = true /\ slash_free repo = true /\
  exists after,
    s = "github.com/" ++ owner ++ "/" ++ repo ++ after /\
    (after = "" \/ exists after', after = String "/" after').
Proof.
  unfold match_at.
  destruct (String.prefix "github.com/" s) eqn:Hp; [|discriminate].
  apply prefix_drop in Hp. change (String.length "github.com/") with 11 in Hp.
  destruct (span_segment (drop 11 s)) as [o rest] eqn:Eo.
  apply span_segment_spec in Eo as [Hs [Ho _]].
  destruct o as [|oc o]; [discriminate|].
  destruct rest as [|c rest]; [discriminate|].
  destruct (is_slash c) eqn:Ec; [|discriminate].
  unfold is_slash in Ec. apply Ascii.eqb_eq in Ec. subst c.
  destruct (span_segment rest) as [r after] eqn:Er.
  apply span_segment_spec in Er as [Hr [Hfr Hafter]].
  destruct r as [|rc r]; [discriminate|].
  intros H. inversion H; subst owner repo.
  repeat split; try discriminate; try assumption.
  exists after. split; [|exact Hafter].
  rewrite Hp at 1. rewrite Hs, Hr. reflexivity.
Qed.

Lemma regex_match_sound s : forall owner repo,
  regex_match s = Some (owner, repo) ->
  owner <> "" /\ repo <> "" /\
  slash_free owner = true /\ slash_free repo = true /\
  exists before after,
    s = before ++ "github.com/" ++ owner ++ "/" ++ repo ++ after /\
    (after = "" \/ exists after', after = String "/" after').
Proof.
  induction s as [|c s IH]; intros owner repo; cbn [regex_match].
  - destruct (match_at "") as [[o r]|] eqn:E; [|discriminate].
    intros H. inversion H; subst.
    apply match_at_sound in E as (Ho & Hr & Hfo & Hfr & after & Hs & Ha).
    repeat split; try assumption. exists "", after. split; assumption.
  - destruct (match_at (String c s)) as [[o r]|] eqn:E.
    + intros H. inversion H; subst.
      apply match_at_sound in E as (Ho & Hr & Hfo & Hfr & after & Hs & Ha).
      repeat split; try assumption. exists "", after. split; assumption.
    + intros H. apply IH in H as (Ho & Hr & Hfo & Hfr & before & after & Hs & Ha).
      repeat split; try assumption.
      exists (String c before), after. split; [|exact Ha].
      change (String c s = String c (before ++ "github.com/" ++ owner ++ "/" ++ repo ++ after)).
      f_equal. exact Hs.
Qed.

(** Whatever the parser returns was read from the URL: the owner is the
    non-empty text between [github.com/] and the next slash, the
    repository is the following segment, up to the next slash or the
    end, without its first [.git]; neither contains a slash. *)
Theorem parse_sound url owner repo :
  parseGitHubUrl url = Some (owner, repo) ->
  owner <> "" /\
  slash_free owner = true /\
  slash_free repo = true /\
  exists before segment after,
    url = before ++ "github.com/" ++ owner ++ "/" ++ segment ++ after /\
    segment <> "" /\
    (after = "" \/ exists after', after = String "/" after') /\
    repo = remove_first ".git" segment.
Proof.
  unfold parseGitHubUrl.
  destruct (regex_match url) as [[o r]|] eqn:E; [|discriminate].
  intros H. inversion H; subst owner repo.
  apply regex_match_sound in E as (Ho & Hr & Hfo & Hfr & before & after & Hs & Ha).
  split; [exact Ho|]. split; [exact Hfo|].
  split; [apply slash_free_remove_first, Hfr|].
  exists before, r, after. repeat split; assumption.
Qed.

Lemma parse_sound_witness :
  "octocat" <> "" /\
  slash_free "octocat" = true /\
  slash_free "demo" = true /\
  exists before segment after,
    "https://github.com/octocat/demo.git"
    = before ++ "github.com/" ++ "octocat" ++ "/" ++ segment ++ after /\
    segment <> "" /\
    (after = "" \/ exists after', after = String "/" after') /\
    "demo" = remove_first ".git" segment.
Proof.
  apply (parse_sound "https://github.com/octocat/demo.git" "octocat" "demo").
  reflexivity.
Defined.

(** ** Completeness on well-formed URLs *)

Lemma match_at_other_letter c s :
  c <> "g"%char -> match_at (String c s) = None.
Proof.
  intros H. apply match_at_needs_prefix.
  change ("github.com/") with (String "g" "ithub.com/"). rewrite prefix_cons.
  destruct (ascii_dec "g" c) as [E|_]; [|reflexivity].
  exfalso. apply H. symmetry. exact E.
Qed.

Lemma regex_match_skip before s :
  Js.includes before "g" = false ->
  regex_match (before ++ s) = regex_match s.
Proof.
  induction before as [|c before IH]; intros H; [reflexivity|].
  apply includes_false_inv in H as [Hp Ht].
  change (String c before ++ s) with (String c (before ++ s)).
  cbn [regex_match]. rewrite match_at_other_letter.
  - apply IH, Ht.
  - intros ->. simpl in Hp. destruct before; discriminate.
Qed.

Lemma match_at_canonical owner segment after :
  owner <> "" -> slash_free owner = true ->
  segment <> "" -> slash_free segment = true ->
  (after = "" \/ exists after', after = String "/" after') ->
  match_at ("github.com/" ++ owner ++ "/" ++ segment ++ after)
  = Some (owner, segment).
Proof.
  intros Ho Hfo Hs Hfs Ha. unfold match_at.
  rewrite prefix_append.
  change (drop 11 ("github.com/" ++ owner ++ "/" ++ segment ++ after))
    with (owner ++ String "/" (segment ++ after)).
  rewrite span_segment_app; [|exact Hfo|right; eexists; reflexivity].
  destruct owner as [|oc owner]; [contradiction|].
  change (is_slash "/") with true. cbv iota.
  rewrite span_segment_app; [|exact Hfs|exact Ha].
  destruct segment as [|sc segment]; [contradiction|]. reflexivity.
Qed.

Lemma regex_match_canonical before owner segment after :
  Js.includes before "g" = false ->
  owner <> "" -> slash_free owner = true ->
  segment <> "" -> slash_free segment = true ->
  (after = "" \/ exists after', after = String "/" after') ->
  regex_match (before ++ "github.com/" ++ owner ++ "/" ++ segment ++ after)
  = Some (owner, segment).
Proof.
  intros Hb Ho Hfo Hs Hfs Ha. rewrite (regex_match_skip _ _ Hb).
  pose proof (match_at_canonical owner segment after Ho Hfo Hs Hfs Ha) as Hm.
  change ("github.com/" ++ owner ++ "/" ++ segment ++ after)
    with (String "g" ("ithub.com/" ++ owner ++ "/" ++ segment ++ after)) in *.
  cbn [regex_match]. rewrite Hm. reflexivity.
Qed.

Lemma remove_first_absent pat s :
  Js.includes s pat = false -> remove_first pat s = s.
Proof.
  induction s as [|c s IH]; intros H;
    apply includes_false_inv in H as [Hp Ht]; cbn [remove_first]; rewrite Hp.
  - reflexivity.
  - rewrite (IH Ht). reflexivity.
Qed.

Lemma remove_first_here pat s :
  String.prefix pat s = true ->
  remove_first pat s = drop (String.length pat) s.
Proof.
  intros H. destruct s; cbn [remove_first]; rewrite H; reflexivity.
Qed.

(** A pattern cannot start inside a text that does not contain it and
    run over into a following [.git]. *)
Lemma dot_git_no_overlap a rest :
  String.prefix ".git" a = false ->
  a <> "" ->
  String.prefix ".git" (a ++ ".git" ++ rest) = false.
Proof.
  intros Hp Hne. revert Hp.
  change ".git" with (String "." (String "g" (String "i" (String "t" "")))).
  destruct a as [|c1 a]; [contradiction|].
  change (String c1 a ++ ?x) with (String c1 (a ++ x)).
  rewrite !prefix_cons. destruct (ascii_dec "." c1); [|reflexivity].
  destruct a as [|c2 a]; [reflexivity|].
  change (String c2 a ++ ?x) with (String c2 (a ++ x)).
  rewrite !prefix_cons. destruct (ascii_dec "g" c2); [|reflexivity].
  destruct a as [|c3 a]; [reflexivity|].
  change (String c3 a ++ ?x) with (String c3 (a ++ x)).
  rewrite !prefix_cons. destruct (ascii_dec "i" c3); [|reflexivity].
  destruct a as [|c4 a]; [reflexivity|].
  change (String c4 a ++ ?x) with (String c4 (a ++ x)).
  rewrite !prefix_cons. destruct (ascii_dec "t" c4); [|reflexivity].
  destruct a; discriminate.
Qed.

Lemma remove_first_dot_git a rest :
  Js.includes a ".git" = false ->
  remove_first ".git" (a ++ ".git" ++ rest) = a ++ rest.
Proof.
  induction a as [|c a IH]; intros H.
  - change ("" ++ ".git" ++ rest) with (".git" ++ rest).
    rewrite remove_first_here; [reflexivity | apply prefix_append].
  - apply includes_false_inv in H as [Hp Ht].
    change (String c a ++ ".git" ++ rest) with (String c (a ++ ".git" ++ rest)).
    cbn [remove_first].
    change (String c (a ++ ".git" ++ rest)) with (String c a ++ ".git" ++ rest).
    rewrite (dot_git_no_overlap (String c a) rest Hp); [|discriminate].
    cbv iota. rewrite (IH Ht). reflexivity.
Qed.

Lemma slash_free_app a b :
  slash_free a = true -> slash_free b = true -> slash_free (a ++ b) = true.
Proof.
  intros Ha Hb. induction a as [|c a IH]; simpl in *; [exact Hb|].
  apply andb_true_iff in Ha as [Hc Ha]. rewrite Hc, (IH Ha). reflexivity.
Qed.

(** A well-formed repository URL is read as written: after any scheme
    and host prefix without the letter g (such as [https://] or
    [https://www.]), [github.com/owner/repo], alone or followed by a
    path, gives back [owner] and [repo] when both are non-empty and
    without a slash and [repo] holds no [.git]. *)
Theorem parse_canonical before owner repo after :
  Js.includes before "g" = false ->
  owner <> "" -> slash_free owner = true ->
  repo <> "" -> slash_free repo = true ->
  Js.includes repo ".git" = false ->
  (after = "" \/ exists after', after = String "/" after') ->
  parseGitHubUrl (before ++ "github.com/" ++ owner ++ "/" ++ repo ++ after)
  = Some (owner, repo).
Proof.
  intros Hb Ho Hfo Hr Hfr Hgit Ha. unfold parseGitHubUrl.
  rewrite (regex_match_canonical before owner repo after Hb Ho Hfo Hr Hfr Ha).
  rewrite (remove_first_absent _ _ Hgit). reflexivity.
Qed.

Lemma parse_canonical_witness :
  parseGitHubUrl ("https://" ++ "github.com/" ++ "octocat" ++ "/" ++ "demo" ++ "/tree/main")
  = Some ("octocat", "demo").
Proof.
  apply (parse_canonical "https://" "octocat" "demo" "/tree/main");
    try reflexivity; try discriminate.
  right. eexists. reflexivity.
Defined.

(** The first [.git] of the repository segment is dropped wherever it
    stands: a trailing [.git] is stripped ([demo.git] gives [demo]),
    and so is one in the middle of a name ([user.github.io] gives
    [userhub.io]). *)
Theorem parse_drops_first_dot_git before owner name rest after :
  Js.includes before "g" = false ->
  owner <> "" -> slash_free owner = true ->
  slash_free name = true -> slash_free rest = true ->
  Js.includes name ".git" = false ->
  (after = "" \/ exists after', after = String "/" after') ->
  parseGitHubUrl
    (before ++ "github.com/" ++ owner ++ "/" ++ (name ++ ".git" ++ rest) ++ after)
  = Some (owner, name ++ rest).
Proof.
  intros Hb Ho Hfo Hfn Hfr Hgit Ha. unfold parseGitHubUrl.
  rewrite (regex_match_canonical before owner (name ++ ".git" ++ rest) after
             Hb Ho Hfo).
  - rewrite (remove_first_dot_git _ _ Hgit). reflexivity.
  - destruct name; discriminate.
  - apply slash_free_app; [exact Hfn|]. apply (slash_free_app ".git" rest eq_refl Hfr).
  - exact Ha.
Qed.

Lemma parse_drops_first_dot_git_witness :
  parseGitHubUrl
    ("https://" ++ "github.com/" ++ "octocat" ++ "/" ++ ("user" ++ ".git" ++ "hub.io") ++ "")
  = Some ("octocat", "user" ++ "hub.io").
Proof.
  apply (parse_drops_first_dot_git "https://" "octocat" "user" "hub.io" "");
    try reflexivity; try discriminate.
  left. reflexivity.
Defined.

End UrlFacts.

(* ===================================================================== *)
(** * More on the aggregator and the API handlers *)
(* ===================================================================== *)

Module ApiBehaviour.
Import Sanitizer Aggregator Api Server.
Import ApiFacts.
(** ** [fetchRepoData] *)

(** The fetch returns a descriptor exactly when the profile and the
    languages calls both succeed, the directory listing was not answered
    with something else than an array, and the commit request was not
    answered with [null]: a rejected listing or commit request never
    prevents it.  When the fetch throws, its message is the one
    classified from the error of the profile call or of the languages
    call, or 'Failed to fetch repository: ' followed by the message of
    the [TypeError] raised on the unusable body. *)
Theorem fetch_returns_descriptor_iff f :
  ((exists d, fetchRepoData f = inl d) <->
   (exists profile langs,
      repo_call f = Fulfilled profile /\ languages_call f = Fulfilled langs) /\
   (forall m, contents_call f <> Fulfilled (NoListing m)) /\
   (forall m, commits_call f <> Fulfilled (NullCommits m))) /\
  (forall message, fetchRepoData f = inr message ->
   (exists e,
      (repo_call f = RejectedWith e \/ languages_call f = RejectedWith e) /\
      message = error_message (classify e)) \/
   (exists m,
      (contents_call f = Fulfilled (NoListing m) \/
       commits_call f = Fulfilled (NullCommits m)) /\
      message = "Failed to fetch repository: " ++ m)).
Proof.
  unfold fetchRepoData, promise_all.
  destruct (repo_call f) as [r|e1], (languages_call f) as [l|e2].
  - destruct (contents_call f) as [[items|mc]|ec];
      destruct (commits_call f) as [[[|c cs]| |mk]|ek]; cbn; split;
      try (split;
           [ intros _; split; [exists r, l; auto | split; intros m H; discriminate]
           | intros _; eexists; reflexivity ]);
      try (intros message H; discriminate);
      try (split;
           [ intros [d H]; discriminate
           | intros (_ & Hc & Hk);
             first [ exfalso; eapply Hc; reflexivity
                   | exfalso; eapply Hk; reflexivity ] ]);
      try (intros message H; inversion H; right; eexists;
           split; [ first [left; reflexivity | right; reflexivity] | reflexivity ]).
  - split.
    + split; [intros [d H]; discriminate
             | intros ((p & q & _ & H) & _); discriminate].
    + intros m H. inversion H. left. exists e2. auto.
  - split.
    + split; [intros [d H]; discriminate
             | intros ((p & q & H & _) & _); discriminate].
    + intros m H. inversion H. left. exists e1. auto.
  - split.
    + split; [intros [d H]; discriminate
             | intros ((p & q & H & _) & _); discriminate].
    + intros m H. inversion H. left.
      destruct (languages_rejects_first f); [exists e2 | exists e1]; auto.
Qed.

Lemma or_else_nonempty v dflt : dflt <> "" -> Js.or_else v dflt <> "".
Proof.
  intros H. unfold Js.or_else. destruct v as [s|]; [|exact H].
  destruct (String.eqb s "") eqn:E; [exact H|].
  apply String.eqb_neq. exact E.
Qed.

(** A descriptor always has a last-commit text: an empty commit list, a
    first entry without message and an empty message all give
    'No commits yet'. *)
Theorem lastCommit_never_empty f d :
  fetchRepoData f = inl d -> lastCommit d <> "".
Proof.
  unfold fetchRepoData.
  destruct (promise_all f) as [[[[r l] contents] commits]|e]; [|discriminate].
  destruct contents as [items|m]; [|discriminate].
  destruct (last_commit_of commits) as [last|m] eqn:E; [|discriminate].
  intros H. inversion H; subst d. simpl.
  destruct commits as [[|c cs]| |m]; inversion E; try discriminate.
  apply or_else_nonempty. discriminate.
Qed.

Lemma lastCommit_never_empty_witness :
  lastCommit Generator.demo <> "".
Proof.
  apply (lastCommit_never_empty (github_demo "octocat" "demo" None)).
  reflexivity.
Defined.

(** ** The answers of [/api/generate-readme] *)

Lemma statusCode_range message :
  statusCode message = 401 \/ statusCode message = 429 \/
  statusCode message = 404 \/ statusCode message = 500.
Proof.
  unfold statusCode.
  destruct (Js.includes message "Authentication"); auto.
  destruct (Js.includes message "rate limit"); auto.
  destruct (Js.includes message "not found"); auto.
Qed.

(** The answers of the [catch] block: the flag [requiresAuth], which is
    true whenever the status is 401, and the text of the error as it
    was thrown, replaced by the marker when it contains one of [ghp_],
    [gho_], [ghs_]. *)
Lemma error_response_members message :
  code (error_response message)
  = (if Js.includes message "Authentication" then 401
     else if Js.includes message "rate limit" then 429
     else if Js.includes message "not found" then 404
     else 500) /\
  member "requiresAuth" (body (error_response message))
    = Some (JBool (Js.includes message "login" || Js.includes message "Authentication")) /\
  (code (error_response message) = 401 ->
   member "requiresAuth" (body (error_response message)) = Some (JBool true)) /\
  member "error" (body (error_response message))
    = Some (JString (if has_token_pattern message then REDACTED else message)).
Proof.
  split; [reflexivity|]. split; [reflexivity|]. split.
  - rewrite code_error_response. unfold statusCode.
    change (member "requiresAuth" (body (error_response message)))
      with (Some (JBool (Js.includes message "login"
                         || Js.includes message "Authentication"))).
    destruct (Js.includes message "Authentication").
    + intros _. rewrite orb_true_r. reflexivity.
    + destruct (Js.includes message "rate limit"); [discriminate|].
      destruct (Js.includes message "not found"); discriminate.
  - unfold error_response, res_json, sanitize. simpl.
    unfold looks_secret, has_token_pattern.
    change (Js.includes (Js.toLowerCase "error") "token") with false.
    change (Js.includes (Js.toLowerCase "error") "secret") with false.
    rewrite !orb_false_r.
    destruct (Js.includes message "ghp_" || Js.includes message "gho_"
              || Js.includes message "ghs_"); reflexivity.
Qed.

(** The three kinds of answer of the handler. *)
Lemma generate_readme_request_cases
    toLocaleDateString github backend session repoUrl :
  let r := generate_readme_request toLocaleDateString github backend session
             repoUrl in
  r = res_json 400 (JObject [("error", JString "Repository URL is required")]) \/
  r = res_json 400 (JObject [("error", JString "Invalid GitHub repository URL")]) \/
  (exists message, r = error_response message) \/
  (exists readme d, r = success_response readme d).
Proof.
  assert (Hroute : forall url,
    let r := generate_readme_route toLocaleDateString github backend session url in
    r = res_json 400 (JObject [("error", JString "Repository URL is required")]) \/
    r = res_json 400 (JObject [("error", JString "Invalid GitHub repository URL")]) \/
    (exists message, r = error_response message) \/
    (exists readme d, r = success_response readme d)).
  { intros url. unfold generate_readme_route, generate_readme.
    destruct (negb (Js.truthy url)); [left; reflexivity|].
    destruct (Url.parseGitHubUrl (Js.interp url)) as [[owner repo]|];
      [|right; left; reflexivity].
    destruct (fetchRepoData (github owner repo (bearer_of session))) as [d|m].
    - right; right; right. eexists. exists d. reflexivity.
    - right; right; left. exists m. reflexivity. }
  unfold generate_readme_request.
  destruct repoUrl as [v|]; [|apply Hroute].
  destruct v as [| b | n | t | items | props]; try apply Hroute;
    cbn [falsy_json].
  - left; reflexivity.
  - destruct (negb b); [left; reflexivity|].
    right; right; left. eexists. reflexivity.
  - destruct (Z.eqb n 0); [left; reflexivity|].
    right; right; left. eexists. reflexivity.
  - right; right; left. eexists. reflexivity.
  - right; right; left. eexists. reflexivity.
Qed.

(** Once the body parser has handed a request over, the handler answers
    with one of six statuses, whatever the [repoUrl] of the body is (no
    member, or any JSON value) and whatever the session, GitHub and the
    generative backend do: 200, 400, 401, 404, 429 or 500. *)
Theorem generate_readme_statuses toLocaleDateString github backend session repoUrl :
  In (code (generate_readme_request toLocaleDateString github backend session
              repoUrl))
     [200; 400; 401; 404; 429; 500].
Proof.
  destruct (generate_readme_request_cases toLocaleDateString github backend
              session repoUrl) as [E|[E|[[m E]|[readme [d E]]]]]; rewrite E.
  - simpl; tauto.
  - simpl; tauto.
  - rewrite code_error_response.
    destruct (statusCode_range m) as [C|[C|[C|C]]]; rewrite C; simpl; tauto.
  - simpl; tauto.
Qed.

(** How the answers of the handler differ.  An answer with status 400
    carries one of two fixed texts and no [requiresAuth].  Any other
    failure carries the text of the error that was thrown, replaced by
    the marker when it contains one of [ghp_], [gho_], [ghs_]; its
    status is selected by that text (401 for "Authentication", else 429
    for "rate limit", else 404 for "not found", else 500) and its
    [requiresAuth] says whether the text contains "login" or
    "Authentication", so it is true whenever the status is 401.  An
    answer with status 200 carries [success: true] and no
    [requiresAuth]. *)
Theorem generate_readme_answer_bodies
    toLocaleDateString github backend session repoUrl :
  let r := generate_readme_request toLocaleDateString github backend session
             repoUrl in
  (code r = 400 /\
   member "requiresAuth" (body r) = None /\
   (member "error" (body r) = Some (JString "Repository URL is required") \/
    member "error" (body r) = Some (JString "Invalid GitHub repository URL")))
  \/
  (exists message,
     code r = (if Js.includes message "Authentication" then 401
               else if Js.includes message "rate limit" then 429
               else if Js.includes message "not found" then 404
               else 500) /\
     member "requiresAuth" (body r)
     = Some (JBool (Js.includes message "login"
                    || Js.includes message "Authentication")) /\
     (code r = 401 -> member "requiresAuth" (body r) = Some (JBool true)) /\
     member "error" (body r)
     = Some (JString (if has_token_pattern message then REDACTED else message)))
  \/
  (code r = 200 /\
   member "success" (body r) = Some (JBool true) /\
   member "error" (body r) = None /\
   member "requiresAuth" (body r) = None).
Proof.
  intros r. subst r.
  destruct (generate_readme_request_cases toLocaleDateString github backend
              session repoUrl) as [E|[E|[[m E]|[readme [d E]]]]]; rewrite E.
  - left. split; [reflexivity|]. split; [reflexivity|]. left; reflexivity.
  - left. split; [reflexivity|]. split; [reflexivity|]. right; reflexivity.
  - right; left. exists m. apply error_response_members.
  - right; right. repeat split; reflexivity.
Qed.

(** How a document reaches the client: with status 200 and [success]
    true, and as the text [generateReadme] returned, unless that text
    contains one of [ghp_], [gho_], [ghs_] anywhere, in which case the
    whole document is replaced by the marker. *)
Theorem success_response_body readme d :
  code (success_response readme d) = 200 /\
  member "success" (body (success_response readme d)) = Some (JBool true) /\
  member "readme" (body (success_response readme d))
    = Some (JString (if has_token_pattern readme then REDACTED else readme)).
Proof.
  split; [reflexivity|]. split; [reflexivity|].
  unfold success_response, res_json, sanitize.
  cbn [clean member assoc body String.eqb Ascii.eqb Bool.eqb replacer].
  unfold looks_secret, has_token_pattern.
  change (Js.includes (Js.toLowerCase "readme") "token") with false.
  change (Js.includes (Js.toLowerCase "readme") "secret") with false.
  rewrite !orb_false_r.
  destruct (Js.includes readme "ghp_" || Js.includes readme "gho_"
            || Js.includes readme "ghs_"); reflexivity.
Qed.

(** A request without [repoUrl], with an empty one, or with a text that
    does not contain [github.com/] is answered 400 whatever the session
    is and whatever GitHub and the backend would answer: neither is
    consulted. *)
Theorem malformed_request_answered_400
    toLocaleDateString github backend session
    toLocaleDateString' github' backend' session' repoUrl :
  Js.truthy repoUrl = false \/
  Js.includes (Js.interp repoUrl) "github.com/" = false ->
  code (generate_readme_route toLocaleDateString github backend session repoUrl)
    = 400 /\
  generate_readme_route toLocaleDateString github backend session repoUrl
  = generate_readme_route toLocaleDateString' github' backend' session' repoUrl.
Proof.
  unfold generate_readme_route, generate_readme.
  destruct (Js.truthy repoUrl) eqn:Et; simpl.
  - intros [H|H]; [discriminate|].
    unfold Url.parseGitHubUrl. rewrite (UrlFacts.regex_match_absent _ H).
    split; reflexivity.
  - intros _. split; reflexivity.
Qed.

(** A failure of the profile call reaches the client as classified,
    whatever the directory listing, the latest commit and the backend
    do, unless the languages call failed first: in particular a 404
    from GitHub is answered 404 and a 401 is answered 401, both with
    [requiresAuth] true, which makes the page offer the login. *)
Theorem profile_failure_reaches_client
    toLocaleDateString github backend session repoUrl owner repo e :
  Js.truthy repoUrl = true ->
  Url.parseGitHubUrl (Js.interp repoUrl) = Some (owner, repo) ->
  repo_call (github owner repo (bearer_of session)) = RejectedWith e ->
  (forall e', languages_call (github owner repo (bearer_of session)) = RejectedWith e' ->
              languages_rejects_first (github owner repo (bearer_of session)) = false) ->
  let r := generate_readme_route toLocaleDateString github backend session repoUrl in
  r = error_response (error_message (classify e)) /\
  (response_status e = Some 404 ->
   code r = 404 /\ member "requiresAuth" (body r) = Some (JBool true)) /\
  (response_status e = Some 401 ->
   code r = 401 /\ member "requiresAuth" (body r) = Some (JBool true)).
Proof.
  intros Hurl Hparse Hrepo Hfirst r.
  assert (Hr : r = error_response (error_message (classify e))).
  { unfold r, generate_readme_route, generate_readme.
    rewrite Hurl, Hparse. cbn [negb].
    unfold fetchRepoData, promise_all. rewrite Hrepo.
    destruct (languages_call (github owner repo (bearer_of session)))
      as [l|e'] eqn:El; [reflexivity|].
    rewrite (Hfirst e' eq_refl). reflexivity. }
  split; [exact Hr|]. rewrite Hr. unfold classify.
  split; intros Hs; rewrite Hs; apply fixed_message_responses.
Qed.

Lemma profile_failure_reaches_client_witness :
  let r := generate_readme_route Generator.us_date Samples.github_hidden
             Generator.backend_down (Auth.mkSession None None None)
             (Some "https://github.com/octocat/hidden") in
  r = error_response (error_message (classify Samples.not_found)) /\
  (response_status Samples.not_found = Some 404 ->
   code r = 404 /\ member "requiresAuth" (body r) = Some (JBool true)) /\
  (response_status Samples.not_found = Some 401 ->
   code r = 401 /\ member "requiresAuth" (body r) = Some (JBool true)).
Proof.
  apply (profile_failure_reaches_client Generator.us_date Samples.github_hidden
           Generator.backend_down (Auth.mkSession None None None)
           (Some "https://github.com/octocat/hidden") "octocat" "hidden"
           Samples.not_found).
  - reflexivity.
  - reflexivity.
  - reflexivity.
  - intros e' _. reflexivity.
Defined.

Lemma malformed_request_answered_400_witness :
  code (generate_readme_route Generator.us_date github_demo Generator.backend_down
          logged_in (Some "not-a-url")) = 400 /\
  generate_readme_route Generator.us_date github_demo Generator.backend_down
    logged_in (Some "not-a-url")
  = generate_readme_route (fun s => s) (fun _ _ _ => profile_forbidden)
      (fun _ => Generator.TextReturned "# demo")
      (Auth.mkSession None None None) (Some "not-a-url").
Proof.
  apply malformed_request_answered_400. right. reflexivity.
Defined.

End ApiBehaviour.

(* ===================================================================== *)
(** * Paging of the repository listing *)
(* ===================================================================== *)

Module ListingBehaviour.
Import Sanitizer Aggregator Api.
Import ApiFacts.

(** ** [parseInt] reads decimal numerals *)

Lemma digits_step k c s acc :
  digit_value c = Some k -> (k <? 10)%nat = true ->
  digits 10 (String c s) acc
  = digits 10 s
      (Some (match acc with Some a => a | None => 0 end * Z.of_nat 10
             + Z.of_nat k)%Z).
Proof.
  intros Hd Hk. cbn [digits]. rewrite Hd, Hk. reflexivity.
Qed.

Ltac decimal_digit k IH :=
  cbn [NilEmpty.string_of_uint Nat.of_uint_acc];
  rewrite (digits_step k) by reflexivity;
  rewrite Nat.tail_mul_spec;
  match goal with
  | |- digits 10 _ (Some ?z) = Some (Z.of_nat (Nat.of_uint_acc _ ?n)) =>
      replace z with (Z.of_nat n) by lia
  end;
  apply IH.

Lemma digits_decimal d : forall a,
  digits 10 (NilEmpty.string_of_uint d) (Some (Z.of_nat a))
  = Some (Z.of_nat (Nat.of_uint_acc d a)).
Proof.
  induction d as [|d IH|d IH|d IH|d IH|d IH|d IH|d IH|d IH|d IH|d IH];
    intros a.
  - reflexivity.
  - decimal_digit 0 IH.
  - decimal_digit 1 IH.
  - decimal_digit 2 IH.
  - decimal_digit 3 IH.
  - decimal_digit 4 IH.
  - decimal_digit 5 IH.
  - decimal_digit 6 IH.
  - decimal_digit 7 IH.
  - decimal_digit 8 IH.
  - decimal_digit 9 IH.
Qed.

Ltac first_digit k :=
  cbn [NilEmpty.string_of_uint Nat.of_uint Nat.of_uint_acc];
  rewrite (digits_step k) by reflexivity;
  rewrite Nat.tail_mul_spec;
  match goal with
  | |- digits 10 _ (Some ?z) = Some (Z.of_nat (Nat.of_uint_acc _ ?n)) =>
      replace z with (Z.of_nat n) by lia
  end;
  apply digits_decimal.

Lemma digits_decimal_start d :
  d <> Decimal.Nil ->
  digits 10 (NilEmpty.string_of_uint d) None = Some (Z.of_nat (Nat.of_uint d)).
Proof.
  intros Hd. unfold Nat.of_uint.
  destruct d; [contradiction | first_digit 0 | first_digit 1 | first_digit 2
    | first_digit 3 | first_digit 4 | first_digit 5 | first_digit 6
    | first_digit 7 | first_digit 8 | first_digit 9].
Qed.

(** A decimal numeral starts with a digit: no white space or sign is
    skipped, and a leading zero is not followed by [x]. *)
Lemma parseInt_decimal d :
  d <> Decimal.Nil ->
  parseInt (NilEmpty.string_of_uint d) = digits 10 (NilEmpty.string_of_uint d) None.
Proof.
  intros Hd. destruct d as [|d|d|d|d|d|d|d|d|d|d];
    [contradiction | | reflexivity ..].
  destruct d; reflexivity.
Qed.

Lemma parseInt_decimal_text n : parseInt (Js.show_nat n) = Some (Z.of_nat n).
Proof.
  unfold Js.show_nat, NilZero.string_of_uint.
  pose proof (Unsigned.of_to n) as Hn.
  destruct (Nat.to_uint n) as [|d|d|d|d|d|d|d|d|d|d] eqn:E;
    try (rewrite parseInt_decimal, digits_decimal_start, Hn by discriminate;
         reflexivity).
  simpl in Hn. subst n. reflexivity.
Qed.

(** [parseInt] reads back the decimal text of a number, also after
    white space and a plus sign, and negates it after a minus sign:
    for every natural number [n], [parseInt(String(n))] is [n],
    [parseInt(' +' + n)] is [n] and [parseInt('-' + n)] is [-n]. *)
Theorem parseInt_show_nat n :
  parseInt (Js.show_nat n) = Some (Z.of_nat n) /\
  parseInt (" +" ++ Js.show_nat n) = Some (Z.of_nat n) /\
  parseInt ("-" ++ Js.show_nat n) = Some (- Z.of_nat n)%Z.
Proof.
  pose proof (parseInt_decimal_text n) as H.
  split; [exact H|].
  assert (Hu : unsigned_part (Js.show_nat n) = Some (Z.of_nat n)).
  { revert H. unfold Js.show_nat, NilZero.string_of_uint.
    destruct (Nat.to_uint n) as [|d|d|d|d|d|d|d|d|d|d]; intros H; exact H. }
  split.
  - change (parseInt (" +" ++ Js.show_nat n)) with (unsigned_part (Js.show_nat n)).
    exact Hu.
  - change (parseInt ("-" ++ Js.show_nat n))
      with (option_map Z.opp (unsigned_part (Js.show_nat n))).
    rewrite Hu. reflexivity.
Qed.

(** ** The listing handler *)

(** Reasoning on a test of the upstream status against 401. *)
Lemma on_status_401 {A} (P : A -> Prop) (o : option nat) (x y : A) :
  P x -> P y -> P (match o with Some 401 => x | _ => y end).
Proof.
  intros Hx Hy. destruct o as [n|]; [|exact Hy].
  do 401 (destruct n as [|n]; [exact Hy|]).
  destruct n; [exact Hx | exact Hy].
Qed.

Lemma repositories_unauthenticated session per_page page upstream :
  Js.truthy (Auth.accessToken session) = false ->
  repositories session per_page page upstream
  = res_json 401 (JObject [("error", JString "Authentication required")]).
Proof.
  intros H. unfold repositories. rewrite H. reflexivity.
Qed.

Lemma repositories_fulfilled_code session per_page page data :
  Js.truthy (Auth.accessToken session) = true ->
  code (repositories session per_page page (Fulfilled data)) = 200.
Proof.
  intros H. unfold repositories. rewrite H. reflexivity.
Qed.

Lemma repositories_rejected_code session per_page page e :
  Js.truthy (Auth.accessToken session) = true ->
  code (repositories session per_page page (RejectedWith e)) = 401 \/
  code (repositories session per_page page (RejectedWith e)) = 500.
Proof.
  intros H. unfold repositories. rewrite H. cbn [negb].
  apply (on_status_401 (fun r => code r = 401 \/ code r = 500));
    [left | right]; reflexivity.
Qed.

(** The listing is answered 200, 401 or 500, and 200 exactly when the
    session holds a token and GitHub returned a page; without a token
    the answer is the 401 of [requireAuth], the same whatever the query
    and GitHub's answer are. *)
Theorem repositories_statuses session per_page page upstream :
  let r := repositories session per_page page upstream in
  In (code r) [200; 401; 500] /\
  (code r = 200 <->
   Js.truthy (Auth.accessToken session) = true /\
   exists data, upstream = Fulfilled data) /\
  (Js.truthy (Auth.accessToken session) = false ->
   forall per_page' page' upstream',
     r = repositories session per_page' page' upstream' /\ code r = 401).
Proof.
  intros r. subst r.
  destruct (Js.truthy (Auth.accessToken session)) eqn:Et.
  - destruct upstream as [data|e].
    + rewrite (repositories_fulfilled_code _ _ _ _ Et).
      split; [simpl; tauto|]. split; [|discriminate].
      split; [intros _; split; [reflexivity | exists data; reflexivity]
             | reflexivity].
    + destruct (repositories_rejected_code session per_page page e Et) as [H|H];
        rewrite H.
      * split; [simpl; tauto|]. split; [|discriminate].
        split; [discriminate | intros [_ [data Hd]]; discriminate].
      * split; [simpl; tauto|]. split; [|discriminate].
        split; [discriminate | intros [_ [data Hd]]; discriminate].
  - rewrite (repositories_unauthenticated _ _ _ _ Et).
    split; [simpl; tauto|]. split.
    + split; [discriminate | intros [H _]; discriminate].
    + intros _ per_page' page' upstream'.
      rewrite (repositories_unauthenticated _ _ _ _ Et). split; reflexivity.
Qed.

(** With [per_page] given as a decimal number [n], an authenticated
    listing that GitHub answers reports [hasMore] true exactly when the
    page has [n] entries; a full last page is therefore announced as
    having more. *)
Theorem hasMore_for_decimal_per_page session n page data :
  Js.truthy (Auth.accessToken session) = true ->
  member "hasMore"
    (body (repositories session (Auth.QString (Js.show_nat n)) page (Fulfilled data)))
  = Some (JBool (length data =? n)%nat).
Proof.
  intros Hauth. unfold repositories. rewrite Hauth.
  cbn [negb parseInt_query]. rewrite parseInt_decimal_text.
  unfold res_json, sanitize.
  cbn [clean member assoc body String.eqb Ascii.eqb Bool.eqb replacer].
  rewrite length_map. unfold length_is.
  f_equal. f_equal.
  destruct (Nat.eqb_spec (length data) n) as [->|Hne].
  - apply Z.eqb_refl.
  - apply Z.eqb_neq. lia.
Qed.

Lemma hasMore_for_decimal_per_page_witness :
  member "hasMore"
    (body (repositories logged_in (Auth.QString (Js.show_nat 2)) Auth.QUndefined
             (Fulfilled two_repos)))
  = Some (JBool (length two_repos =? 2)%nat).
Proof.
  apply hasMore_for_decimal_per_page. reflexivity.
Defined.

End ListingBehaviour.

(* ===================================================================== *)
(** * The page a listing reports *)
(* ===================================================================== *)

Module ListingPage.
Import Sanitizer Aggregator Api ApiFacts ListingBehaviour.

(** A text that starts with a letter is not a number. *)
Lemma parseInt_letter c rest :
  (65 <= nat_of_ascii c <= 90 \/ 97 <= nat_of_ascii c <= 122)%nat ->
  parseInt (String c rest) = None.
Proof.
  destruct c as [[|] [|] [|] [|] [|] [|] [|] [|]];
    intros H; try reflexivity; exfalso; cbn in H; lia.
Qed.

(** The answer to an authenticated listing that GitHub answered. *)
Lemma repositories_fulfilled session per_page page data :
  Js.truthy (Auth.accessToken session) = true ->
  let r := repositories session per_page page (Fulfilled data) in
  code r = 200 /\
  exists items,
    member "repositories" (body r) = Some (JArray items) /\
    length items = length data /\
    member "total" (body r) = Some (JNumber (Z.of_nat (length data))) /\
    member "hasMore" (body r)
    = Some (JBool (length_is (length data) (parseInt_query per_page 30))).
Proof.
  intros Hauth. unfold repositories. rewrite Hauth. simpl.
  split; [reflexivity|].
  eexists. split; [reflexivity|].
  rewrite cleaned_items_length, !length_map.
  repeat split; reflexivity.
Qed.

Lemma length_is_nat n m : length_is n (Some (Z.of_nat m)) = true <-> n = m.
Proof.
  rewrite length_is_true. split; intros H; [|subst; reflexivity].
  inversion H. lia.
Qed.

(** C10: an authenticated listing whose upstream call succeeds is
    answered with status 200; [total] is the number of entries of the
    page GitHub returned, which is the number of entries of the
    [repositories] array of the answer, and [hasMore] is true exactly
    when that number equals the page size asked for, [parseInt] of the
    [per_page] of the query: 30 when the query has no [per_page]; [n]
    when it is the decimal text of [n], also after a space or a
    no-break space; and no number, so that [hasMore] is false, when it
    is empty or starts with a letter. *)
Theorem repositories_total_and_hasMore session per_page page data :
  Js.truthy (Auth.accessToken session) = true ->
  let r := repositories session per_page page (Fulfilled data) in
  code r = 200 /\
  exists items more,
    member "repositories" (body r) = Some (JArray items) /\
    length items = length data /\
    member "total" (body r) = Some (JNumber (Z.of_nat (length data))) /\
    member "hasMore" (body r) = Some (JBool more) /\
    (more = true <-> parseInt_query per_page 30 = Some (Z.of_nat (length data))) /\
    (per_page = Auth.QUndefined -> (more = true <-> length data = 30%nat)) /\
    (forall n, per_page = Auth.QString (Js.show_nat n) ->
               (more = true <-> length data = n)) /\
    (forall n, per_page = Auth.QString (" " ++ Js.show_nat n) ->
               (more = true <-> length data = n)) /\
    (forall n, per_page = Auth.QString (nbsp ++ Js.show_nat n) ->
               (more = true <-> length data = n)) /\
    (per_page = Auth.QString "" -> more = false) /\
    (forall c rest,
       per_page = Auth.QString (String c rest) ->
       (65 <= nat_of_ascii c <= 90 \/ 97 <= nat_of_ascii c <= 122)%nat ->
       more = false).
Proof.
  intros Hauth r.
  destruct (repositories_fulfilled session per_page page data Hauth)
    as [Hcode [items [Hitems [Hlen [Htotal Hmore]]]]].
  split; [exact Hcode|].
  exists items, (length_is (length data) (parseInt_query per_page 30)).
  split; [exact Hitems|]. split; [exact Hlen|]. split; [exact Htotal|].
  split; [exact Hmore|].
  split; [apply length_is_true|].
  split; [intros ->; apply (length_is_nat _ 30)|].
  split; [intros n ->; cbn [parseInt_query]; rewrite parseInt_decimal_text;
          apply length_is_nat|].
  split; [intros n ->; cbn [parseInt_query];
          change (parseInt (" " ++ Js.show_nat n)) with (parseInt (Js.show_nat n));
          rewrite parseInt_decimal_text; apply length_is_nat|].
  split; [intros n ->; cbn [parseInt_query];
          change (parseInt (nbsp ++ Js.show_nat n)) with (parseInt (Js.show_nat n));
          rewrite parseInt_decimal_text; apply length_is_nat|].
  split; [intros ->; reflexivity|].
  intros c rest -> Hc. cbn [parseInt_query]. rewrite parseInt_letter by exact Hc.
  reflexivity.
Qed.

Lemma repositories_total_and_hasMore_witness :
  let r := repositories logged_in (Auth.QString "2") Auth.QUndefined
             (Fulfilled two_repos) in
  code r = 200 /\
  member "total" (body r) = Some (JNumber 2) /\
  member "hasMore" (body r) = Some (JBool true).
Proof.
  destruct (repositories_total_and_hasMore logged_in (Auth.QString "2")
              Auth.QUndefined two_repos eq_refl)
    as [Hcode [items [more [_ [_ [Htotal [Hmore [_ [_ [Hdec _]]]]]]]]]].
  split; [exact Hcode|]. split; [exact Htotal|].
  rewrite Hmore. f_equal. f_equal. apply (Hdec 2%nat); reflexivity.
Defined.

(** ** Numbers as doubles *)

Lemma to_double_small z : (Z.abs z < 2 ^ 53)%Z -> to_double z = Some z.
Proof.
  intros H. unfold to_double. apply Z.ltb_lt in H. rewrite H. reflexivity.
Qed.

Lemma to_double_large z v :
  (2 ^ 53 <= Z.abs z)%Z -> to_double z = Some v -> (2 ^ 53 <= Z.abs v)%Z.
Proof.
  intros Hz. unfold to_double.
  destruct (Z.ltb_spec (Z.abs z) (2 ^ 53)) as [H|_]; [lia|].
  set (m := Z.abs z) in *. set (e := (Z.log2 m - 52)%Z).
  assert (Hm : (0 < m)%Z) by (change (2 ^ 53)%Z with 9007199254740992%Z in Hz; lia).
  assert (Hlog : (53 <= Z.log2 m)%Z).
  { change 53%Z with (Z.log2 (2 ^ 53)). apply Z.log2_le_mono. exact Hz. }
  assert (He : (1 <= e)%Z) by (unfold e; lia).
  pose proof (Z.log2_spec m Hm) as [Hlo _].
  set (q := Z.shiftr m e).
  assert (Hq : (2 ^ 52 <= q)%Z).
  { unfold q. rewrite Z.shiftr_div_pow2 by lia.
    apply Z.div_le_lower_bound; [apply Z.pow_pos_nonneg; lia|].
    rewrite <- Z.pow_add_r by lia.
    replace (e + 52)%Z with (Z.log2 m) by (unfold e; lia).
    exact Hlo. }
  match goal with
  | |- context [if ?c then (q + 1)%Z else q] =>
      set (q' := if c then (q + 1)%Z else q);
      assert (Hq' : (2 ^ 52 <= q')%Z) by (unfold q'; destruct c; lia)
  end.
  destruct (Z.shiftl q' e <? 2 ^ 1024)%Z; [|discriminate].
  intros Hv. inversion Hv as [Ev]. clear Hv.
  rewrite Z.shiftl_mul_pow2 by lia.
  assert (Hp : (2 <= 2 ^ e)%Z).
  { change 2%Z with (2 ^ 1)%Z at 1. apply Z.pow_le_mono_r; lia. }
  assert (Hprod : (2 ^ 53 <= q' * 2 ^ e)%Z).
  { change (2 ^ 53)%Z with (2 ^ 52 * 2)%Z. apply Z.mul_le_mono_nonneg; lia. }
  rewrite Z.abs_mul.
  assert (Hs : Z.abs (Z.sgn z) = 1%Z) by (unfold m in Hm; destruct z; cbn in *; lia).
  rewrite Hs. lia.
Qed.

(** [repos.length === parseInt(per_page)] compares the length with a
    double; on a length, which is below 2^53, the comparison with the
    integer the digits denote gives the same answer. *)
Lemma length_is_on_double n z :
  (Z.of_nat n < 2 ^ 53)%Z ->
  length_is n (Some z)
  = match to_double z with
    | Some w => Z.eqb (Z.of_nat n) w
    | None => false
    end.
Proof.
  intros Hn. unfold length_is.
  destruct (Z.lt_ge_cases (Z.abs z) (2 ^ 53)) as [Hz|Hz].
  - rewrite to_double_small by exact Hz. reflexivity.
  - assert (E : Z.eqb (Z.of_nat n) z = false) by (apply Z.eqb_neq; lia).
    rewrite E. destruct (to_double z) as [w|] eqn:Ew; [|reflexivity].
    apply to_double_large in Ew; [|exact Hz].
    symmetry. apply Z.eqb_neq. lia.
Qed.

(** A page number above 2^53 is echoed as the double [parseInt]
    returned: 2^53 + 1 comes back as 2^53. *)
Example page_echoed_as_double :
  member "page"
    (body (repositories logged_in Auth.QUndefined
             (Auth.QString "9007199254740993") (Fulfilled two_repos)))
  = Some (JNumber 9007199254740992).
Proof. vm_compute. reflexivity. Qed.

End ListingPage.

(* ===================================================================== *)
(** * What the fallback document says *)
(* ===================================================================== *)

Module FallbackContent.
Import Aggregator Generator GeneratorFacts.

Lemma includes_decompose s h :
  Js.includes s h = true -> exists before rest, s = before ++ h ++ rest.
Proof.
  induction s as [|c s IH]; cbn [Js.includes]; intros H;
    apply orb_true_iff in H as [H|H].
  - exists "", (Url.drop (String.length h) ""). apply UrlFacts.prefix_drop, H.
  - discriminate.
  - exists "", (Url.drop (String.length h) (String c s)).
    apply UrlFacts.prefix_drop, H.
  - destruct (IH H) as (before & rest & ->).
    exists (String c before), rest. reflexivity.
Qed.

Lemma includes_app_r s after h :
  Js.includes s h = true -> Js.includes (s ++ after) h = true.
Proof.
  intros H. apply includes_decompose in H as (before & rest & ->).
  rewrite !append_assoc. apply includes_append.
Qed.

Lemma includes_trans s h x :
  Js.includes s h = true -> Js.includes h x = true -> Js.includes s x = true.
Proof.
  intros Hs Hh. apply includes_decompose in Hs as (before & rest & ->).
  apply includes_weaken, includes_app_r, Hh.
Qed.

Lemma includes_refl s : Js.includes s s = true.
Proof.
  rewrite <- (append_nil_r s) at 1. apply (includes_append "" s "").
Qed.

Lemma includes_join sep xs x :
  In x xs -> Js.includes (Js.join sep xs) x = true.
Proof.
  induction xs as [|y xs IH]; [contradiction|].
  intros [->|Hin].
  - destruct xs as [|z xs]; [apply includes_refl|].
    change (Js.includes (x ++ sep ++ Js.join sep (z :: xs)) x = true).
    apply (includes_append "" x).
  - destruct xs as [|z xs]; [contradiction|].
    change (Js.includes (y ++ sep ++ Js.join sep (z :: xs)) x = true).
    rewrite <- append_assoc. apply includes_weaken, IH, Hin.
Qed.

(** A text is found in a joined list when it is found in one of its
    items. *)
Lemma oio_join_all sep xs : occurs_in_order xs (Js.join sep xs).
Proof.
  induction xs as [|x xs IH]; [constructor | apply oio_join_take, IH].
Qed.

Lemma includes_join_exists sep xs x :
  Exists (fun item => Js.includes item x = true) xs ->
  Js.includes (Js.join sep xs) x = true.
Proof.
  intros H. apply Exists_exists in H as (item & Hin & Hx).
  apply includes_trans with (h := item); [apply includes_join, Hin | exact Hx].
Qed.

(** An ASCII byte is none of the bytes that continue a character. *)
Lemma ascii_not_continuation c k :
  (nat_of_ascii c <? 128)%nat = true -> (128 <=? nat_of_ascii k)%nat = true ->
  Ascii.eqb c k = false.
Proof.
  intros Hc Hk. apply Ascii.eqb_neq. intros ->.
  apply Nat.ltb_lt in Hc. apply Nat.leb_le in Hk. lia.
Qed.

Lemma toLowerCase_cons c s :
  Js.toLowerCase (String c s)
  = if Ascii.eqb c "226" then
      match s with
      | String c2 (String c3 s3) =>
          if (Ascii.eqb c2 "132" && Ascii.eqb c3 "170")%bool
          then String "k" (Js.toLowerCase s3)
          else String c (Js.toLowerCase s)
      | _ => String c (Js.toLowerCase s)
      end
    else if Ascii.eqb c "196" then
      match s with
      | String c2 s2 =>
          if Ascii.eqb c2 "176"
          then String "i" (String "204" (String "135" (Js.toLowerCase s2)))
          else String c (Js.toLowerCase s)
      | EmptyString => String c EmptyString
      end
    else String (Js.lower_ascii c) (Js.toLowerCase s).
Proof. reflexivity. Qed.

(** Lowering can be done on both sides of an ASCII byte: no character
    that is lowered spans it. *)
Lemma toLowerCase_at_ascii c rest :
  (nat_of_ascii c <? 128)%nat = true ->
  forall n before, (String.length before <= n)%nat ->
  Js.toLowerCase (before ++ String c rest)
  = Js.toLowerCase before ++ Js.toLowerCase (String c rest).
Proof.
  intros Hc.
  assert (H132 : Ascii.eqb c "132" = false)
    by (apply ascii_not_continuation; [exact Hc | reflexivity]).
  assert (H170 : Ascii.eqb c "170" = false)
    by (apply ascii_not_continuation; [exact Hc | reflexivity]).
  assert (H176 : Ascii.eqb c "176" = false)
    by (apply ascii_not_continuation; [exact Hc | reflexivity]).
  induction n as [|n IH]; intros before Hlen.
  - destruct before; [reflexivity | simpl in Hlen; lia].
  - destruct before as [|c1 b1]; [reflexivity|].
    simpl in Hlen.
    change (String c1 b1 ++ String c rest) with (String c1 (b1 ++ String c rest)).
    rewrite (toLowerCase_cons c1 (b1 ++ String c rest)).
    rewrite (toLowerCase_cons c1 b1).
    destruct (Ascii.eqb c1 "226").
    + destruct b1 as [|c2 [|c3 b3]].
      * change ("" ++ String c rest) with (String c rest).
        destruct rest as [|c3 r]; [reflexivity|].
        cbv iota. rewrite H132. reflexivity.
      * change (String c2 "" ++ String c rest) with (String c2 (String c rest)).
        cbv iota. rewrite H170, andb_false_r.
        change (String c2 (String c rest)) with (String c2 "" ++ String c rest).
        rewrite (IH (String c2 "")) by (simpl in *; lia). reflexivity.
      * change (String c2 (String c3 b3) ++ String c rest)
          with (String c2 (String c3 (b3 ++ String c rest))).
        cbv iota.
        destruct (Ascii.eqb c2 "132" && Ascii.eqb c3 "170").
        -- rewrite (IH b3) by (simpl in *; lia). reflexivity.
        -- change (String c2 (String c3 (b3 ++ String c rest)))
             with (String c2 (String c3 b3) ++ String c rest).
           rewrite (IH (String c2 (String c3 b3))) by (simpl in *; lia). reflexivity.
    + destruct (Ascii.eqb c1 "196").
      * destruct b1 as [|c2 b2].
        -- change ("" ++ String c rest) with (String c rest).
           cbv iota. rewrite H176. reflexivity.
        -- change (String c2 b2 ++ String c rest)
             with (String c2 (b2 ++ String c rest)).
           cbv iota.
           destruct (Ascii.eqb c2 "176").
           ++ rewrite (IH b2) by (simpl in *; lia). reflexivity.
           ++ change (String c2 (b2 ++ String c rest))
                with (String c2 b2 ++ String c rest).
              rewrite (IH (String c2 b2)) by (simpl in *; lia). reflexivity.
      * rewrite (IH b1) by (simpl in *; lia). reflexivity.
Qed.

(** Looks for a text in the lines of the blocks of the document. *)
Ltac find_line :=
  repeat first
    [ apply Exists_cons_hd;
      solve [ reflexivity | apply includes_app_r; reflexivity ]
    | apply Exists_cons_tl ].

Ltac find_block :=
  repeat first
    [ apply Exists_cons_hd;
      solve [ apply includes_join_exists; find_line ]
    | apply Exists_cons_tl ].

Ltac unfold_sections :=
  unfold generateFallbackReadme, sections, sec_title, sec_badges,
    sec_description, sec_features, sec_techStack, sec_prerequisites,
    sec_installation, sec_usage, sec_projectStructure, sec_contributing,
    sec_license, sec_contact, Js.lines.

Ltac find_in_fallback :=
  apply includes_join_exists; find_block.

Section Content.
Variable toLocaleDateString : string -> string.

(** For a repository that uses JavaScript, Python or Java, as main
    language or among its languages, the fallback document names the
    matching prerequisite, install command and run command. *)
Theorem fallback_language_instructions d :
  (uses d "JavaScript" = true ->
   Js.includes (generateFallbackReadme toLocaleDateString d)
     "- Node.js and npm installed" = true /\
   Js.includes (generateFallbackReadme toLocaleDateString d) "npm install" = true /\
   Js.includes (generateFallbackReadme toLocaleDateString d) "npm start" = true) /\
  (uses d "Python" = true ->
   Js.includes (generateFallbackReadme toLocaleDateString d)
     "- Python 3.x installed" = true /\
   Js.includes (generateFallbackReadme toLocaleDateString d)
     "pip install -r requirements.txt" = true /\
   Js.includes (generateFallbackReadme toLocaleDateString d) "python main.py" = true) /\
  (uses d "Java" = true ->
   Js.includes (generateFallbackReadme toLocaleDateString d)
     "- Java JDK installed" = true /\
   Js.includes (generateFallbackReadme toLocaleDateString d) "mvn install" = true /\
   Js.includes (generateFallbackReadme toLocaleDateString d)
     "java -jar target/app.jar" = true).
Proof.
  unfold_sections.
  split; [|split]; intros H; rewrite H; (split; [|split]); find_in_fallback.
Qed.

(** Every one of the first ten root files has its line in the
    project-structure block, in the order of the listing, after the
    heading; when there are more than ten, one further line counts the
    files that are left out. *)
Theorem fallback_lists_first_ten_files d :
  occurs_in_order
    (List.app
       (h_structure ::
        map (fun file => deco_branch ++ " " ++ file) (firstn 10 (files d)))
       (if (10 <? length (files d))%nat then
          [ deco_last_branch ++ " ... and " ++
            Js.show_nat (length (files d) - 10) ++ " more files" ]
        else []))
    (generateFallbackReadme toLocaleDateString d).
Proof.
  unfold generateFallbackReadme, sections.
  do 8 apply oio_join_skip.
  match goal with
  | |- occurs_in_order ?hs _ => rewrite <- (app_nil_r hs)
  end.
  apply oio_join_within; [|constructor].
  unfold sec_projectStructure, Js.lines. cbn [app].
  apply oio_join_take. do 3 apply oio_join_skip.
  apply oio_join_within; [apply oio_join_all|].
  destruct (10 <? length (files d))%nat.
  - apply oio_join_take. constructor.
  - constructor.
Qed.

(** ** The quality meter on the fallback document *)

Variable js_length : string -> nat.

Lemma fallback_has_heading_marks d :
  Js.includes (generateFallbackReadme toLocaleDateString d) "##" = true.
Proof. unfold_sections. find_in_fallback. Qed.

Lemma fallback_has_code_fence d :
  Js.includes (generateFallbackReadme toLocaleDateString d) "```" = true.
Proof. unfold_sections. find_in_fallback. Qed.

Lemma fallback_has_badge d :
  Js.includes (generateFallbackReadme toLocaleDateString d) "![" = true.
Proof. unfold_sections. find_in_fallback. Qed.

Lemma fallback_has_installation d :
  Js.includes (Js.toLowerCase (generateFallbackReadme toLocaleDateString d))
    "installation" = true.
Proof.
  assert (H : Js.includes (generateFallbackReadme toLocaleDateString d)
                "Installation" = true)
    by (unfold_sections; find_in_fallback).
  apply includes_decompose in H as (before & rest & ->).
  change ("Installation" ++ rest) with (String "I" ("nstallation" ++ rest)).
  rewrite (toLowerCase_at_ascii "I" _ eq_refl (String.length before) before)
    by apply Nat.le_refl.
  apply includes_weaken.
  apply (includes_append "" "installation" (Js.toLowerCase rest)).
Qed.

(** The fallback document always earns at least 80 percent on the
    quality meter of the page: it has headings, a code block, a badge
    and an installation section for every descriptor; only the length
    test can fail. *)
Theorem fallback_quality_at_least_80 d :
  let q := Frontend.calculateQuality js_length
             (generateFallbackReadme toLocaleDateString d) in
  80 <= fst q /\
  (fst q = 100 <-> 1500 < js_length (generateFallbackReadme toLocaleDateString d)).
Proof.
  unfold Frontend.calculateQuality, Frontend.award.
  rewrite fallback_has_heading_marks, fallback_has_code_fence,
    fallback_has_badge, fallback_has_installation.
  cbn [fst snd].
  destruct (Nat.ltb_spec 1500
              (js_length (generateFallbackReadme toLocaleDateString d)));
    cbn [fst Nat.add]; split; try lia.
Qed.

(** The score shown is twenty points per badge listed under it, and
    never more than 100 percent. *)
Theorem quality_score_counts_badges readme :
  let q := Frontend.calculateQuality js_length readme in
  fst q = 20 * length (snd q) /\ fst q <= 100.
Proof.
  unfold Frontend.calculateQuality, Frontend.award.
  destruct (Js.includes readme "##"), (Js.includes readme "```"),
    (Js.includes readme "!["),
    (Js.includes (Js.toLowerCase readme) "installation"),
    (1500 <? js_length readme)%nat; cbn; split; lia.
Qed.

End Content.

Lemma fallback_language_instructions_witness :
  Js.includes (generateFallbackReadme us_date Samples.webapp)
    "- Node.js and npm installed" = true /\
  Js.includes (generateFallbackReadme us_date Samples.webapp) "npm install" = true /\
  Js.includes (generateFallbackReadme us_date Samples.webapp) "npm start" = true.
Proof.
  apply (proj1 (fallback_language_instructions us_date Samples.webapp)).
  reflexivity.
Defined.

End FallbackContent.
